(** * Voicemail processor: Kinesis Video consumer and batch handler

    A shallow embedding of [kvs_consumer.py] (class
    [KvsPythonConsumerConnect]) and of [vmx_to_s3.py] ([lambda_handler]),
    and the properties of the two that the specification states.

    Python values are modelled by the data they carry: [int] is [Z],
    [str] is [string], [bytes]/[bytearray] is a list of bytes, an
    insertion-ordered [dict] with string keys is an association list.
    Statements that can raise live in a state-and-exception monad, so that
    [try]/[except]/[finally] are combinators and the part of a [try] body
    that ran before the exception keeps its effect. *)

From Stdlib Require Import ZArith List String Ascii Bool Lia Arith.
From Stdlib Require Import DecimalString Decimal DecimalNat DecimalPos.
From Stdlib Require Import Sorted.
Import ListNotations.

#[local] Set Warnings "-register-all".  (* json nests list and prod *)

Local Open Scope string_scope.
Local Open Scope list_scope.
Local Open Scope Z_scope.

(* ================================================================== *)
(** ** Python values *)

Definition bytes := list Byte.byte.

(** The exception classes the two modules can meet; all of them derive
    from [Exception]. [ClientError] stands for whatever a collaborator
    (boto3, the KVS consumer library, [wave]) raises. *)
Inductive exn : Type :=
| KeyError | IndexError | TypeError | ValueError | AttributeError
| OverflowError | ClientError.

(** Outcome of running a statement: it returns, it raises, or it never
    returns ([Hang]: the polling loop of [service_loop]). *)
Inductive res (A : Type) : Type :=
| Ok (a : A)
| Raise (e : exn)
| Hang.
Arguments Ok {A} a.
Arguments Raise {A} e.
Arguments Hang {A}.

(** *** dict with string keys, in insertion order *)

Definition dict (V : Type) := list (string * V).

Fixpoint dict_get {V} (d : dict V) (k : string) : option V :=
  match d with
  | [] => None
  | (k', v) :: d' => if String.eqb k' k then Some v else dict_get d' k
  end.

(** [d[k] = v]: an existing key keeps its position, a new one goes last. *)
Fixpoint dict_set {V} (d : dict V) (k : string) (v : V) : dict V :=
  match d with
  | [] => [(k, v)]
  | (k', v') :: d' =>
      if String.eqb k' k then (k', v) :: d' else (k', v') :: dict_set d' k v
  end.

(** [d[k]] as an expression. *)
Definition dict_getitem {V} (d : dict V) (k : string) : res V :=
  match dict_get d k with
  | Some v => Ok v
  | None => Raise KeyError
  end.

(** *** int(str) *)

(** Whitespace that [int] strips from both ends of its argument. *)
Definition is_space (c : ascii) : bool :=
  let n := nat_of_ascii c in
  ((n =? 32) || ((9 <=? n) && (n <=? 13)) || ((28 <=? n) && (n <=? 31)))%nat.

Definition digit_val (c : ascii) : option Z :=
  let n := nat_of_ascii c in
  if ((48 <=? n) && (n <=? 57))%nat then Some (Z.of_nat (n - 48)) else None.

Fixpoint lstrip (l : list ascii) : list ascii :=
  match l with
  | c :: l' => if is_space c then lstrip l' else l
  | [] => []
  end.

Definition strip (l : list ascii) : list ascii :=
  List.rev (lstrip (List.rev (lstrip l))).

(** Decimal digits, a single underscore allowed between two digits.
    [prev] tells whether the previous character was a digit. *)
Fixpoint int_digits (acc : Z) (prev : bool) (l : list ascii) : option Z :=
  match l with
  | [] => if prev then Some acc else None
  | c :: l' =>
      match digit_val c with
      | Some d => int_digits (10 * acc + d) true l'
      | None =>
          if Ascii.eqb c "_"%char && prev then int_digits acc false l'
          else None
      end
  end.

Definition int_signed (l : list ascii) : option Z :=
  match l with
  | "-"%char :: l' => option_map Z.opp (int_digits 0 false l')
  | "+"%char :: l' => int_digits 0 false l'
  | _ => int_digits 0 false l
  end.

(** [int(s)] for a [str]: the exact integer the decimal text denotes,
    whatever its size, or [ValueError]. (Strings are byte strings here, so
    decimal digits outside ASCII, which CPython also reads, are not; nor
    is the interpreter's configurable cap on the number of digits.) *)
Definition int_of_str (s : string) : res Z :=
  match int_signed (strip (list_ascii_of_string s)) with
  | Some z => Ok z
  | None => Raise ValueError
  end.

(** *** Decoded JSON *)

(** A Python [float]: not-a-number, an infinity, or the dyadic [m * 2^e]. *)
Inductive pyfloat : Type :=
| FNan
| FInf (negative : bool)
| FFinite (m e : Z).

(** What [json.loads] returns. [JObj] lists the items of the [dict] in
    insertion order. *)
Inductive json : Type :=
| JNull
| JBool (b : bool)
| JInt (z : Z)
| JFloat (f : pyfloat)
| JStr (s : string)
| JArr (l : list json)
| JObj (d : list (string * json)).

(** [int(v)] *)
Definition py_int (v : json) : res Z :=
  match v with
  | JStr s => int_of_str s
  | JInt z => Ok z
  | JBool b => Ok (if b then 1 else 0)
  | JFloat FNan => Raise ValueError
  | JFloat (FInf _) => Raise OverflowError
  | JFloat (FFinite m e) =>
      Ok (if 0 <=? e then m * 2 ^ e else Z.quot m (2 ^ (- e)))
  | JNull | JArr _ | JObj _ => Raise TypeError
  end.

(** [v[k]] for a string [k] *)
Definition getitem_str (v : json) (k : string) : res json :=
  match v with
  | JObj d => dict_getitem d k
  | _ => Raise TypeError
  end.

(** [v[0]] *)
Definition getitem_0 (v : json) : res json :=
  match v with
  | JArr (x :: _) => Ok x
  | JArr [] => Raise IndexError
  | JStr (String c _) => Ok (JStr (String c EmptyString))
  | JStr EmptyString => Raise IndexError
  | JObj _ => Raise KeyError
  | _ => Raise TypeError
  end.

(** [v == s] for a string literal [s] *)
Definition eq_str (v : json) (s : string) : bool :=
  match v with
  | JStr s' => String.eqb s' s
  | _ => false
  end.

(** *** str methods used by the handler *)

Fixpoint find_char (c : ascii) (l : list ascii) : option nat :=
  match l with
  | [] => None
  | x :: l' =>
      if Ascii.eqb x c then Some O else option_map S (find_char c l')
  end.

Fixpoint rfind_char (c : ascii) (l : list ascii) : option nat :=
  match l with
  | [] => None
  | x :: l' =>
      match rfind_char c l' with
      | Some i => Some (S i)
      | None => if Ascii.eqb x c then Some O else None
      end
  end.

(** [s.index(c)] and [s.rindex(c)] *)
Definition str_index (s : string) (c : ascii) : res nat :=
  match find_char c (list_ascii_of_string s) with
  | Some i => Ok i
  | None => Raise ValueError
  end.

Definition str_rindex (s : string) (c : ascii) : res nat :=
  match rfind_char c (list_ascii_of_string s) with
  | Some i => Ok i
  | None => Raise ValueError
  end.

(** [s[i:j]] for non-negative [i], [j] *)
Definition str_slice (s : string) (i j : nat) : string :=
  string_of_list_ascii
    (firstn (j - i) (skipn i (list_ascii_of_string s))).

Fixpoint startswith (p s : string) : bool :=
  match p, s with
  | EmptyString, _ => true
  | String a p', String b s' => Ascii.eqb a b && startswith p' s'
  | String _ _, EmptyString => false
  end.

(** Decimal text of a counter, as an f-string renders it. *)
Definition dec (n : nat) : string :=
  NilEmpty.string_of_uint (Nat.to_uint n).

(* ================================================================== *)
(** ** State and exceptions *)

Definition M (S A : Type) : Type := S -> S * res A.

Definition ret {S A} (a : A) : M S A := fun s => (s, Ok a).

Definition bind {S A B} (m : M S A) (f : A -> M S B) : M S B :=
  fun s =>
    match m s with
    | (s', Ok a) => f a s'
    | (s', Raise e) => (s', Raise e)
    | (s', Hang) => (s', Hang)
    end.

Definition gets {S A} (f : S -> A) : M S A := fun s => (s, Ok (f s)).
Definition modify {S} (f : S -> S) : M S unit := fun s => (f s, Ok tt).

(** An expression that reads no state. *)
Definition lift {S A} (r : res A) : M S A := fun s => (s, r).

(** [try: m except Exception: h] *)
Definition try_except {S A} (m : M S A) (h : exn -> M S A) : M S A :=
  fun s =>
    match m s with
    | (s', Raise e) => h e s'
    | r => r
    end.

(** [try: m finally: f], for an [f] that does not raise. *)
Definition try_finally {S A} (m : M S A) (f : S -> S) : M S A :=
  fun s =>
    match m s with
    | (s', Hang) => (s', Hang)
    | (s', r) => (f s', r)
    end.

Declare Scope py_scope.
Delimit Scope py_scope with py.
Notation "x <- m ;; k" := (bind m (fun x => k))
  (at level 61, m at next level, right associativity) : py_scope.
Notation "m ;; k" := (bind m (fun _ => k))
  (at level 61, right associativity) : py_scope.
Local Open Scope py_scope.

(** A collaborator's answer to one call: it raises or returns. *)
Definition answer (A : Type) : Type := (exn + A)%type.

Definition of_answer {A} (a : answer A) : res A :=
  match a with
  | inl e => Raise e
  | inr x => Ok x
  end.

(** [None], as the error slot of a call that went through. *)
Definition of_error (e : option exn) : res unit :=
  match e with
  | Some x => Raise x
  | None => Ok tt
  end.

(* ================================================================== *)
(** ** kvs_consumer.py *)

(** A fragment as the fragment processor sees it: what each of its three
    methods does on the fragment's DOM. *)
Record fragment_dom : Type := {
  get_fragment_tags : answer (dict string);
  save_connect_fragment_audio_track_from_customer : answer (option bytes);
  save_connect_fragment_audio_track_to_customer : answer (option bytes)
}.

(** Calls that leave the two modules, in the order they are made. *)
Inductive io_call : Type :=
| NewConsumer (stream : string) (start stop : Z)
| KinesisVideoClient
| GetDataEndpoint (stream : string)
| KinesisVideoMediaClient
| GetMedia (stream : string) (after : Z)
| GetFragmentTags (dom : fragment_dom)
| FromCustomerTrack (dom : fragment_dom)
| ToCustomerTrack (dom : fragment_dom)
| WaveWrite (track : bytes)
| PutObject (body : bytes) (bucket key content_type tagging : string).

(** The attributes of a [KvsPythonConsumerConnect] instance. The two
    finished artifacts are [None] until packaged. *)
Record KvsPythonConsumerConnect : Type := {
  stream_name : string;
  start_fragment : Z;
  end_fragment : Z;
  last_good_fragment_tags : option (dict string);
  past_end_fragment : bool;
  from_audio_fragments : bytes;
  to_audio_fragments : bytes;
  to_customer_audio : option bytes;
  from_customer_audio : option bytes
}.

(** The instance together with the calls made so far. *)
Record proc : Type := {
  self : KvsPythonConsumerConnect;
  io : list io_call
}.

Definition on_self (f : KvsPythonConsumerConnect -> KvsPythonConsumerConnect)
  : M proc unit :=
  modify (fun p => {| self := f (self p); io := io p |}).

Definition log_call (c : io_call) : M proc unit :=
  modify (fun p => {| self := self p; io := io p ++ [c] |}).

(** A call to a collaborator: recorded, then answered. *)
Definition call {A} (c : io_call) (a : answer A) : M proc A :=
  log_call c ;; lift (of_answer a).

Definition set_last_good_fragment_tags (t : dict string)
  (c : KvsPythonConsumerConnect) : KvsPythonConsumerConnect :=
  {| stream_name := stream_name c; start_fragment := start_fragment c;
     end_fragment := end_fragment c;
     last_good_fragment_tags := Some t;
     past_end_fragment := past_end_fragment c;
     from_audio_fragments := from_audio_fragments c;
     to_audio_fragments := to_audio_fragments c;
     to_customer_audio := to_customer_audio c;
     from_customer_audio := from_customer_audio c |}.

Definition set_past_end_fragment
  (c : KvsPythonConsumerConnect) : KvsPythonConsumerConnect :=
  {| stream_name := stream_name c; start_fragment := start_fragment c;
     end_fragment := end_fragment c;
     last_good_fragment_tags := last_good_fragment_tags c;
     past_end_fragment := true;
     from_audio_fragments := from_audio_fragments c;
     to_audio_fragments := to_audio_fragments c;
     to_customer_audio := to_customer_audio c;
     from_customer_audio := from_customer_audio c |}.

Definition extend_from_audio_fragments (data : bytes)
  (c : KvsPythonConsumerConnect) : KvsPythonConsumerConnect :=
  {| stream_name := stream_name c; start_fragment := start_fragment c;
     end_fragment := end_fragment c;
     last_good_fragment_tags := last_good_fragment_tags c;
     past_end_fragment := past_end_fragment c;
     from_audio_fragments := from_audio_fragments c ++ data;
     to_audio_fragments := to_audio_fragments c;
     to_customer_audio := to_customer_audio c;
     from_customer_audio := from_customer_audio c |}.

Definition extend_to_audio_fragments (data : bytes)
  (c : KvsPythonConsumerConnect) : KvsPythonConsumerConnect :=
  {| stream_name := stream_name c; start_fragment := start_fragment c;
     end_fragment := end_fragment c;
     last_good_fragment_tags := last_good_fragment_tags c;
     past_end_fragment := past_end_fragment c;
     from_audio_fragments := from_audio_fragments c;
     to_audio_fragments := to_audio_fragments c ++ data;
     to_customer_audio := to_customer_audio c;
     from_customer_audio := from_customer_audio c |}.

Definition set_to_customer_audio (wav : bytes)
  (c : KvsPythonConsumerConnect) : KvsPythonConsumerConnect :=
  {| stream_name := stream_name c; start_fragment := start_fragment c;
     end_fragment := end_fragment c;
     last_good_fragment_tags := last_good_fragment_tags c;
     past_end_fragment := past_end_fragment c;
     from_audio_fragments := from_audio_fragments c;
     to_audio_fragments := to_audio_fragments c;
     to_customer_audio := Some wav;
     from_customer_audio := from_customer_audio c |}.

Definition set_from_customer_audio (wav : bytes)
  (c : KvsPythonConsumerConnect) : KvsPythonConsumerConnect :=
  {| stream_name := stream_name c; start_fragment := start_fragment c;
     end_fragment := end_fragment c;
     last_good_fragment_tags := last_good_fragment_tags c;
     past_end_fragment := past_end_fragment c;
     from_audio_fragments := from_audio_fragments c;
     to_audio_fragments := to_audio_fragments c;
     to_customer_audio := to_customer_audio c;
     from_customer_audio := Some wav |}.

(** The condition of the guard in [on_fragment_arrived]:
    [int(current_fragment) > int(self.end_fragment)], both already [int]. *)
Definition is_past_end (current_fragment end_fragment : Z) : bool :=
  current_fragment >? end_fragment.

(** [if data:] for a value that is [None] or a byte string. *)
Definition truthy (data : option bytes) : bool :=
  match data with
  | Some (_ :: _) => true
  | _ => false
  end.

Definition FRAGMENT_NUMBER : string := "AWS_KINESISVIDEO_FRAGMENT_NUMBER".

(** What the library delivers to the three call-backs. *)
Inductive kvs_event : Type :=
| FragmentArrived (dom : fragment_dom)
| StreamReadComplete
| StreamReadException.

(** What the Kinesis Video service does for one consumer: the errors of
    the calls that open the stream, the events the library thread then
    delivers, in order, and how many more of them it has delivered,
    after the one that set the flag, by the time the polling
    [service_loop] next looks at it. *)
Record kvs_stream : Type := {
  kvs_client_error : option exn;
  data_endpoint_error : option exn;
  media_client_error : option exn;
  get_media_error : option exn;
  delivered : list kvs_event;
  poll_lag : nat
}.

Section Consumer.

(** [wave.open(io.BytesIO(), "wb")] with the fixed parameters, then
    [writeframes]: the container bytes, or an exception. *)
Variable wave_write : bytes -> answer bytes.

(** [__init__] *)
Definition new_consumer (k : kvs_stream) (stream : string) (start stop : Z)
  (calls : list io_call) : list io_call * res KvsPythonConsumerConnect :=
  let calls := calls ++ [NewConsumer stream start stop; KinesisVideoClient] in
  match kvs_client_error k with
  | Some e => (calls, Raise e)
  | None =>
      (calls,
       Ok {| stream_name := stream; start_fragment := start;
             end_fragment := stop;
             last_good_fragment_tags := None;
             past_end_fragment := false;
             from_audio_fragments := [];
             to_audio_fragments := [];
             to_customer_audio := None;
             from_customer_audio := None |})
  end.

Definition convert_track_to_wav (track : bytes) : M proc bytes :=
  call (WaveWrite track) (wave_write track).

(** The body of the [try] of [on_fragment_arrived]. *)
Definition on_fragment_arrived_try (dom : fragment_dom) : M proc unit :=
  tags <- call (GetFragmentTags dom) (get_fragment_tags dom) ;;
  on_self (set_last_good_fragment_tags tags) ;;
  number <- lift (dict_getitem tags FRAGMENT_NUMBER) ;;
  current_fragment <- lift (int_of_str number) ;;
  stop <- gets (fun p => end_fragment (self p)) ;;
  if is_past_end current_fragment stop then
    on_self set_past_end_fragment
  else
    from_data <- call (FromCustomerTrack dom)
                   (save_connect_fragment_audio_track_from_customer dom) ;;
    (if truthy from_data
     then on_self (extend_from_audio_fragments
                     (match from_data with Some d => d | None => [] end))
     else ret tt) ;;
    to_data <- call (ToCustomerTrack dom)
                 (save_connect_fragment_audio_track_to_customer dom) ;;
    if truthy to_data
    then on_self (extend_to_audio_fragments
                    (match to_data with Some d => d | None => [] end))
    else ret tt.

Definition on_fragment_arrived (dom : fragment_dom) : M proc unit :=
  try_except (on_fragment_arrived_try dom) (fun _ => ret tt).

(** The body of the [try] of [on_stream_read_complete]. *)
Definition on_stream_read_complete_try : M proc unit :=
  to_track <- gets (fun p => to_audio_fragments (self p)) ;;
  (if (0 <? List.length to_track)%nat
   then wav <- convert_track_to_wav to_track ;;
        on_self (set_to_customer_audio wav)
   else ret tt) ;;
  from_track <- gets (fun p => from_audio_fragments (self p)) ;;
  if (0 <? List.length from_track)%nat
  then wav <- convert_track_to_wav from_track ;;
       on_self (set_from_customer_audio wav)
  else ret tt.

Definition on_stream_read_complete : M proc unit :=
  try_finally
    (try_except on_stream_read_complete_try (fun _ => ret tt))
    (fun p => {| self := set_past_end_fragment (self p); io := io p |}).

(** Only logs. *)
Definition on_stream_read_exception : M proc unit := ret tt.

(** The library thread calling back. *)
Definition deliver (e : kvs_event) : M proc unit :=
  match e with
  | FragmentArrived dom => on_fragment_arrived dom
  | StreamReadComplete => on_stream_read_complete
  | StreamReadException => on_stream_read_exception
  end.

Fixpoint deliver_all (evs : list kvs_event) : M proc unit :=
  match evs with
  | [] => ret tt
  | e :: evs' => deliver e ;; deliver_all evs'
  end.

(** [while not self.past_end_fragment: time.sleep(1)], the library thread
    delivering [evs] meanwhile. The loop ends at the first look that finds
    the flag set, [lag] events after the one that set it; it never ends
    when every event has been delivered and the flag is still unset. *)
Fixpoint await (evs : list kvs_event) (lag : nat) (p : proc)
  : proc * res unit :=
  if past_end_fragment (self p) then deliver_all (firstn lag evs) p
  else
    match evs with
    | [] => (p, Hang)
    | e :: evs' =>
        match deliver e p with
        | (p', Ok _) => await evs' lag p'
        | r => r
        end
    end.

Definition service_loop (k : kvs_stream) : M proc unit :=
  name <- gets (fun p => stream_name (self p)) ;;
  log_call (GetDataEndpoint name) ;;
  lift (of_error (data_endpoint_error k)) ;;
  log_call KinesisVideoMediaClient ;;
  lift (of_error (media_client_error k)) ;;
  start <- gets (fun p => start_fragment (self p)) ;;
  log_call (GetMedia name start) ;;
  lift (of_error (get_media_error k)) ;;
  await (delivered k) (poll_lag k).

End Consumer.

(* ================================================================== *)
(** ** vmx_to_s3.py *)

Definition AUDIO_MIME_TYPE : string := "audio/x-wav".

(** One element of [event["Records"]], seen through lines 53-54: the
    value [json.loads] returns for its base64, UTF-8 encoded payload, or
    the exception one of the three decoding steps raises. *)
Definition kinesis_record : Type := answer json.

(** What surrounds the handling of one record: the stream its consumer
    reads, the UTC date as [strftime] prints it (year, month, day), and
    the error of [put_object], if any. *)
Record record_env : Type := {
  kvs : kvs_stream;
  utc_now : string * string * string;
  put_object_error : option exn
}.

(** The local variables of [lambda_handler] that outlive one iteration,
    and the calls made so far. *)
Record batch : Type := {
  response_container : dict string;
  total_record_count : nat;
  processed_record_count : nat;
  calls : list io_call
}.

Definition start_of_batch : batch :=
  {| response_container := []; total_record_count := O;
     processed_record_count := O; calls := [] |}.

(** The returned [dict]. *)
Record response : Type := {
  statusCode : Z;
  status : string;
  recordResults : dict string
}.

Definition incr_total (b : batch) : batch :=
  {| response_container := response_container b;
     total_record_count := S (total_record_count b);
     processed_record_count := processed_record_count b;
     calls := calls b |}.

Definition incr_processed (b : batch) : batch :=
  {| response_container := response_container b;
     total_record_count := total_record_count b;
     processed_record_count := S (processed_record_count b);
     calls := calls b |}.

Definition set_calls (cs : list io_call) (b : batch) : batch :=
  {| response_container := response_container b;
     total_record_count := total_record_count b;
     processed_record_count := processed_record_count b;
     calls := cs |}.

Definition record_label (n : nat) : string :=
  "Record #" ++ dec n ++ " result".

(** [response_container[f"Record #{total_record_count} result"] = msg] *)
Definition set_result (msg : string) (b : batch) : batch :=
  {| response_container :=
       dict_set (response_container b)
         (record_label (total_record_count b)) msg;
     total_record_count := total_record_count b;
     processed_record_count := processed_record_count b;
     calls := calls b |}.

(** [try: body except Exception: handler; continue], then [rest]. *)
Definition attempt {S A} (body : M S A) (handler : M S unit)
  (rest : A -> M S unit) : M S unit :=
  fun s =>
    match body s with
    | (s', Ok a) => rest a s'
    | (s', Raise _) => handler s'
    | (s', Hang) => (s', Hang)
    end.

(** [v.get(k, default)] *)
Definition get_default (v : json) (k : string) (default : json) : res json :=
  match v with
  | JObj d =>
      Ok (match dict_get d k with Some x => x | None => default end)
  | _ => Raise AttributeError
  end.

(** [stream_arn[stream_arn.index("/") + 1 : stream_arn.rindex("/")]] *)
Definition stream_name_of (stream_arn : json) : res string :=
  match stream_arn with
  | JStr s =>
      match str_index s "/"%char with
      | Ok i =>
          match str_rindex s "/"%char with
          | Ok j => Ok (str_slice s (i + 1) j)
          | Raise e => Raise e
          | Hang => Hang
          end
      | Raise e => Raise e
      | Hang => Hang
      end
  | JArr l =>
      (* a list has [index] but no [rindex] *)
      if existsb (fun v => eq_str v "/") l
      then Raise AttributeError else Raise ValueError
  | _ => Raise AttributeError
  end.

(** [s.rstrip("&")] *)
Fixpoint rstrip_amp (s : string) : string :=
  match s with
  | EmptyString => EmptyString
  | String c s' =>
      match rstrip_amp s' with
      | EmptyString =>
          if Ascii.eqb c "&" then EmptyString else String c EmptyString
      | t => String c t
      end
  end.

Definition MSG_DECODE : string := "Failed to extract record and/or decode".
Definition MSG_KVS_INFO : string := "Failed to extract KVS info".
Definition MSG_VM_TAGS : string := "Failed to extract vm tags".

Section Handler.

Variable wave_write : bytes -> answer bytes.

(** How an f-string renders a decoded value ([str]); a [str] as itself. *)
Variable py_str : json -> string.

(** The environment variables [S3_VOICEMAIL_BUCKET], [S3_RECORDING_PATH]. *)
Variable BUCKET_NAME : string.
Variable RECORDING_PATH : string.

(** The surroundings of the record numbered [n], counting from 1. *)
Variable env : nat -> record_env.

Definition msg_already_processed (contact_id : json) : string :=
  "ContactID: " ++ py_str contact_id
    ++ " - IGNORE - voicemail already processed".

Definition msg_flag_not_valid (contact_id : json) : string :=
  "ContactID: " ++ py_str contact_id
    ++ " - IGNORE - voicemail flag not valid".

Definition msg_flag_error (contact_id : json) : string :=
  "ContactID: " ++ py_str contact_id
    ++ " - IGNORE - An error occurred whilst evaluating Voicemail Flag".

Definition msg_s3_failed (contact_id : json) : string :=
  "ContactID: " ++ py_str contact_id ++ " - Failed to write audio to S3".

(** Lines 53-55. *)
Definition extract_record (record : kinesis_record) : M batch (json * json) :=
  vm_record <- lift (of_answer record) ;;
  current_contact_id <- lift (getitem_str vm_record "ContactId") ;;
  ret (vm_record, current_contact_id).

(** Lines 65-84; [true] when the loop body goes on, [false] at a
    [continue]. *)
Definition evaluate_flag (vm_record current_contact_id : json)
  : M batch bool :=
  attributes <- lift (getitem_str vm_record "Attributes") ;;
  vm_flag <- lift (get_default attributes "vm_flag" (JStr "99")) ;;
  if eq_str vm_flag "1" then ret true
  else if eq_str vm_flag "0" then
    modify (set_result (msg_already_processed current_contact_id)) ;;
    modify incr_processed ;;
    ret false
  else
    modify (set_result (msg_flag_not_valid current_contact_id)) ;;
    modify incr_processed ;;
    ret false.

(** [vm_record["Recordings"][0][field]] *)
Definition recording_field (vm_record : json) (field : string) : res json :=
  match getitem_str vm_record "Recordings" with
  | Ok recordings =>
      match getitem_0 recordings with
      | Ok first => getitem_str first field
      | r => r
      end
  | r => r
  end.

(** Lines 95-99. *)
Definition extract_kvs_info (vm_record : json) : M batch (string * Z * Z) :=
  stream_arn <- lift (recording_field vm_record "Location") ;;
  stream <- lift (stream_name_of stream_arn) ;;
  start_number <- lift (recording_field vm_record "FragmentStartNumber") ;;
  fragment_start <- lift (py_int start_number) ;;
  stop_number <- lift (recording_field vm_record "FragmentStopNumber") ;;
  fragment_stop <- lift (py_int stop_number) ;;
  ret (stream, fragment_start, fragment_stop).

(** The loop of lines 112-114 over [attribute_data.items()]. *)
Fixpoint tag_loop (items : list (string * json)) (container : string)
  : string :=
  match items with
  | [] => container
  | (key, value) :: items' =>
      tag_loop items'
        (if startswith "vm_" key
         then (container ++ key ++ "=" ++ py_str value ++ "&")%string
         else container)
  end.

(** Lines 111-116. The value of [rstrip] is computed and dropped: the
    statement is an expression statement. *)
Definition extract_vm_tags (vm_record : json) : M batch string :=
  attribute_data <- lift (get_default vm_record "Attributes" (JObj [])) ;;
  items <- lift (match attribute_data with
                 | JObj d => Ok d
                 | _ => Raise AttributeError
                 end) ;;
  let attribute_tag_container := tag_loop items "" in
  let _ := rstrip_amp attribute_tag_container in
  ret attribute_tag_container.

(** Runs a method of the consumer [c] inside the handler. *)
Definition on_processor {A} (c : KvsPythonConsumerConnect) (m : M proc A)
  : M batch (KvsPythonConsumerConnect * A) :=
  fun b =>
    match m {| self := c; io := calls b |} with
    | (p, Ok a) => (set_calls (io p) b, Ok (self p, a))
    | (p, Raise e) => (set_calls (io p) b, Raise e)
    | (p, Hang) => (set_calls (io p) b, Hang)
    end.

(** Lines 129-165. *)
Definition write_audio (current_contact_id : json) (stream : string)
  (fragment_start fragment_stop : Z) (attribute_tag_container : string)
  : M batch unit :=
  n <- gets total_record_count ;;
  let w := env n in
  processor <- (fun b =>
     let (cs, r) :=
       new_consumer (kvs w) stream fragment_start fragment_stop (calls b) in
     (set_calls cs b, r)) ;;
  served <- on_processor processor (service_loop wave_write (kvs w)) ;;
  let audio_file := from_customer_audio (fst served) in
  let '(year, month, day) := utc_now w in
  let s3_base_path : string :=
    (RECORDING_PATH ++ year ++ "/" ++ month ++ "/" ++ day ++ "/")%string in
  s3_path <- lift (match current_contact_id with
                   | JStr s => Ok (s3_base_path ++ s ++ ".wav")%string
                   | _ => Raise TypeError
                   end) ;;
  body <- lift (match audio_file with
                | Some wav => Ok wav
                | None => Raise AttributeError
                end) ;;
  modify (fun b =>
    set_calls (calls b ++ [PutObject body BUCKET_NAME s3_path
                             AUDIO_MIME_TYPE attribute_tag_container]) b) ;;
  lift (of_error (put_object_error w)) ;;
  modify incr_processed.

(** Lines 93-171: what follows the flag for a record that is a
    voicemail. *)
Definition retrieve_and_store (vm_record current_contact_id : json)
  : M batch unit :=
  attempt (extract_kvs_info vm_record) (modify (set_result MSG_KVS_INFO))
    (fun '(stream, fragment_start, fragment_stop) =>
  attempt (extract_vm_tags vm_record) (modify (set_result MSG_VM_TAGS))
    (fun attribute_tag_container =>
  attempt (write_audio current_contact_id stream fragment_start
             fragment_stop attribute_tag_container)
    (modify (set_result (msg_s3_failed current_contact_id)))
    (fun _ => ret tt))).

(** The body of the [for] loop, lines 49-171. *)
Definition process_record (record : kinesis_record) : M batch unit :=
  modify incr_total ;;
  attempt (extract_record record) (modify (set_result MSG_DECODE))
    (fun '(vm_record, current_contact_id) =>
  attempt (evaluate_flag vm_record current_contact_id)
    (modify (set_result (msg_flag_error current_contact_id)))
    (fun proceed =>
       if proceed then retrieve_and_store vm_record current_contact_id
       else ret tt)).

Fixpoint for_records (records : list kinesis_record) : M batch unit :=
  match records with
  | [] => ret tt
  | record :: records' => process_record record ;; for_records records'
  end.

Definition make_response (b : batch) : response :=
  {| statusCode := 200;
     status := "Complete. Processed " ++ dec (processed_record_count b)
                 ++ " of " ++ dec (total_record_count b) ++ " records.";
     recordResults := response_container b |}.

(** [lambda_handler(event, context)], [records] being [event["Records"]]:
    the final state of the locals and what the call does. *)
Definition lambda_handler (records : list kinesis_record)
  : batch * res response :=
  (for_records records ;; b <- gets (fun b => b) ;; ret (make_response b))
    start_of_batch.

End Handler.

(* ================================================================== *)
(** ** What one event adds to a channel *)

(** The fragment number [on_fragment_arrived] reads off a fragment. *)
Definition fragment_number (dom : fragment_dom) : res Z :=
  match get_fragment_tags dom with
  | inl e => Raise e
  | inr tags =>
      match dict_getitem tags FRAGMENT_NUMBER with
      | Ok number => int_of_str number
      | Raise e => Raise e
      | Hang => Hang
      end
  end.

Definition span (a : answer (option bytes)) : bytes :=
  match a with
  | inr (Some d) => d
  | _ => []
  end.

Definition raised {A} (a : answer A) : bool :=
  match a with
  | inl _ => true
  | inr _ => false
  end.

(** Bytes a fragment adds to the FROM buffer of a consumer bounded by
    [stop], and to its TO buffer. *)
Definition from_span (stop : Z) (dom : fragment_dom) : bytes :=
  match fragment_number dom with
  | Ok f =>
      if is_past_end f stop then []
      else span (save_connect_fragment_audio_track_from_customer dom)
  | _ => []
  end.

Definition to_span (stop : Z) (dom : fragment_dom) : bytes :=
  match fragment_number dom with
  | Ok f =>
      if is_past_end f stop then []
      else if raised (save_connect_fragment_audio_track_from_customer dom)
           then []
           else span (save_connect_fragment_audio_track_to_customer dom)
  | _ => []
  end.

Definition from_span_of (stop : Z) (e : kvs_event) : bytes :=
  match e with
  | FragmentArrived dom => from_span stop dom
  | _ => []
  end.

Definition to_span_of (stop : Z) (e : kvs_event) : bytes :=
  match e with
  | FragmentArrived dom => to_span stop dom
  | _ => []
  end.

(** Decides which branch a fragment takes in [on_fragment_arrived]. *)
Definition sets_flag (stop : Z) (dom : fragment_dom) : bool :=
  match fragment_number dom with
  | Ok f => is_past_end f stop
  | _ => false
  end.

Definition sets_flag_of (stop : Z) (e : kvs_event) : bool :=
  match e with
  | FragmentArrived dom => sets_flag stop dom
  | StreamReadComplete => true
  | StreamReadException => false
  end.

Definition is_put_object (c : io_call) : bool :=
  match c with
  | PutObject _ _ _ _ _ => true
  | _ => false
  end.

(** The [Tagging] argument of a [put_object] call. *)
Definition tagging_of (c : io_call) : option string :=
  match c with
  | PutObject _ _ _ _ tagging => Some tagging
  | _ => None
  end.

(** The tagging string the loop of [extract_vm_tags] builds, item by
    item. *)
Definition tag_of (py_str : json -> string) (item : string * json)
  : string :=
  if startswith "vm_" (fst item)
  then fst item ++ "=" ++ py_str (snd item) ++ "&"
  else "".

(** The messages the [except] blocks of the handler record. *)
Definition failure_message (py_str : json -> string) (msg : string) : Prop :=
  msg = MSG_DECODE \/ msg = MSG_KVS_INFO \/ msg = MSG_VM_TAGS \/
  exists contact_id,
    msg = msg_flag_error py_str contact_id \/
    msg = msg_s3_failed py_str contact_id.

(** How the handling of one record can end, from the state [s1] in which
    the record has been counted: a stage raised and its message was
    recorded; the record was skipped on its flag; the audio was retrieved
    or not but not stored; it was stored; or the wait for the consumer
    never ends. *)
Inductive handled (wave_write : bytes -> answer bytes)
  (py_str : json -> string) (env : nat -> record_env) (s1 : batch)
  : batch * res unit -> Prop :=
| handled_failed (msg : string) :
    failure_message py_str msg ->
    handled wave_write py_str env s1 (set_result msg s1, Ok tt)
| handled_skipped (contact_id : json) (msg : string) :
    msg = msg_already_processed py_str contact_id \/
    msg = msg_flag_not_valid py_str contact_id ->
    handled wave_write py_str env s1
      (incr_processed (set_result msg s1), Ok tt)
| handled_not_stored (cs : list io_call) (contact_id : json) :
    handled wave_write py_str env s1
      (set_result (msg_s3_failed py_str contact_id) (set_calls cs s1), Ok tt)
| handled_stored (cs : list io_call) :
    handled wave_write py_str env s1 (incr_processed (set_calls cs s1), Ok tt)
| handled_blocked (c : KvsPythonConsumerConnect) (cs0 cs : list io_call) :
    snd (service_loop wave_write (kvs (env (total_record_count s1)))
           {| self := c; io := cs0 |}) = Hang ->
    handled wave_write py_str env s1 (set_calls cs s1, Hang).

(** The keys of a result mapping are the labels of records numbered
    from 1 to [limit], in increasing order. *)
Definition labelled_in_order (limit : nat) (d : dict string) : Prop :=
  exists ns : list nat,
    map fst d = map record_label ns /\
    StronglySorted lt ns /\
    Forall (fun k => (1 <= k <= limit)%nat) ns.

(** The object key of line 150 for the date [today] and a contact id. *)
Definition s3_key (RECORDING_PATH : string) (today : string * string * string)
  (contact_id : string) : string :=
  let '(year, month, day) := today in
  (RECORDING_PATH ++ year ++ "/" ++ month ++ "/" ++ day ++ "/")
    ++ contact_id ++ ".wav".

(* ================================================================== *)
(** ** Collaborators and inputs to evaluate on *)

Definition byte_of (n : N) : Byte.byte :=
  match Byte.of_N (n mod 256) with
  | Some b => b
  | None => Byte.x00
  end.

Definition le16 (n : N) : bytes := [byte_of n; byte_of (n / 256)].

Definition le32 (n : N) : bytes :=
  [byte_of n; byte_of (n / 256); byte_of (n / 65536);
   byte_of (n / 16777216)].

Definition ascii_bytes (s : string) : bytes :=
  map byte_of_ascii (list_ascii_of_string s).

(** The file the [wave] module leaves in the buffer for one channel,
    8000 frames a second, two bytes a sample: the RIFF header with the
    patched sizes, then the frames; [struct.error] past 32 bits. *)
Definition wave_pcm (track : bytes) : answer bytes :=
  let n := N.of_nat (List.length track) in
  if (4294967296 <=? 36 + n)%N then inl ClientError
  else inr (ascii_bytes "RIFF" ++ le32 (36 + n) ++ ascii_bytes "WAVEfmt "
            ++ le32 16 ++ le16 1 ++ le16 1 ++ le32 8000 ++ le32 16000
            ++ le16 2 ++ le16 16 ++ ascii_bytes "data" ++ le32 n ++ track).

(** A [wave] that fails. *)
Definition wave_broken (track : bytes) : answer bytes := inl ClientError.

(** [str(z)] for an [int]. *)
Definition str_of_int (z : Z) : string := NilZero.string_of_int (Z.to_int z).


(** [str] on the scalars the inputs below carry; a [float] or a container
    is outside it. *)
Definition str_of_scalar (v : json) : string :=
  match v with
  | JStr s => s
  | JInt z => str_of_int z
  | JBool true => "True"
  | JBool false => "False"
  | JNull => "None"
  | _ => ""
  end.

(** A fragment numbered [number] carrying the two spans. *)
Definition fragment (number : string) (from_data to_data : option bytes)
  : fragment_dom :=
  {| get_fragment_tags := inr [(FRAGMENT_NUMBER, number)];
     save_connect_fragment_audio_track_from_customer := inr from_data;
     save_connect_fragment_audio_track_to_customer := inr to_data |}.

(** A fragment whose TO track cannot be read. *)
Definition fragment_bad_to (number : string) (from_data : option bytes)
  : fragment_dom :=
  {| get_fragment_tags := inr [(FRAGMENT_NUMBER, number)];
     save_connect_fragment_audio_track_from_customer := inr from_data;
     save_connect_fragment_audio_track_to_customer := inl ClientError |}.

(** A fragment that cannot be parsed at all. *)
Definition fragment_corrupt : fragment_dom :=
  {| get_fragment_tags := inl ClientError;
     save_connect_fragment_audio_track_from_customer := inl ClientError;
     save_connect_fragment_audio_track_to_customer := inl ClientError |}.

(** A stream that opens and delivers [events]. *)
Definition stream_of (events : list kvs_event) (lag : nat) : kvs_stream :=
  {| kvs_client_error := None; data_endpoint_error := None;
     media_client_error := None; get_media_error := None;
     delivered := events; poll_lag := lag |}.

Definition env_of (events : list kvs_event) (lag : nat) : record_env :=
  {| kvs := stream_of events lag;
     utc_now := ("2024", "01", "05");
     put_object_error := None |}.

(** A freshly built consumer. *)
Definition consumer (stream : string) (start stop : Z)
  : KvsPythonConsumerConnect :=
  {| stream_name := stream; start_fragment := start; end_fragment := stop;
     last_good_fragment_tags := None; past_end_fragment := false;
     from_audio_fragments := []; to_audio_fragments := [];
     to_customer_audio := None; from_customer_audio := None |}.

(** The decoded payload of a contact record. *)
Definition contact_record (contact_id : string)
  (attributes : list (string * json)) (location start stop : string)
  : kinesis_record :=
  inr (JObj [("ContactId", JStr contact_id);
             ("Attributes", JObj attributes);
             ("Recordings",
              JArr [JObj [("Location", JStr location);
                          ("FragmentStartNumber", JStr start);
                          ("FragmentStopNumber", JStr stop)]])]).

Definition LOCATION : string :=
  "arn:aws:kinesisvideo:us-east-1:111122223333:stream/connect-vm/1700000000".

(* ================================================================== *)
(** ** The consumer: what the call-backs do to the instance *)

Ltac unfold_py :=
  unfold on_fragment_arrived, on_fragment_arrived_try,
    on_stream_read_complete, on_stream_read_complete_try,
    on_stream_read_exception, convert_track_to_wav,
    try_except, try_finally, call, log_call, on_self, bind, ret, lift,
    gets, modify, of_answer, of_error, dict_getitem in *.

(** One fragment: the call-back returns, and the instance changes by
    exactly the spans and the flag the fragment stands for. *)
Lemma on_fragment_arrived_effect (dom : fragment_dom) (p : proc) :
  exists p',
    on_fragment_arrived dom p = (p', Ok tt) /\
    stream_name (self p') = stream_name (self p) /\
    start_fragment (self p') = start_fragment (self p) /\
    end_fragment (self p') = end_fragment (self p) /\
    past_end_fragment (self p') =
      past_end_fragment (self p) || sets_flag (end_fragment (self p)) dom /\
    from_audio_fragments (self p') =
      from_audio_fragments (self p) ++ from_span (end_fragment (self p)) dom /\
    to_audio_fragments (self p') =
      to_audio_fragments (self p) ++ to_span (end_fragment (self p)) dom /\
    to_customer_audio (self p') = to_customer_audio (self p) /\
    from_customer_audio (self p') = from_customer_audio (self p).
Proof.
  destruct p as [c calls0].
  unfold sets_flag, from_span, to_span, fragment_number, span, raised.
  unfold_py. cbn.
  destruct (get_fragment_tags dom) as [e | tags]; cbn.
  { eexists; repeat split; cbn;
      rewrite ?orb_false_r, ?app_nil_r; reflexivity. }
  destruct (dict_get tags FRAGMENT_NUMBER) as [number |]; cbn.
  2: { eexists; repeat split; cbn;
         rewrite ?orb_false_r, ?app_nil_r; reflexivity. }
  unfold int_of_str.
  destruct (int_signed (strip (list_ascii_of_string number))) as [f |]; cbn.
  2: { eexists; repeat split; cbn;
         rewrite ?orb_false_r, ?app_nil_r; reflexivity. }
  destruct (is_past_end f (end_fragment c)); cbn.
  { eexists; repeat split; cbn;
      rewrite ?orb_true_r, ?app_nil_r; reflexivity. }
  destruct (save_connect_fragment_audio_track_from_customer dom)
    as [e | [[| x d] |]]; cbn;
  destruct (save_connect_fragment_audio_track_to_customer dom)
    as [e' | [[| y d'] |]]; cbn;
  eexists; repeat split; cbn;
    rewrite ?orb_false_r, ?app_nil_r; reflexivity.
Qed.

Section ConsumerFacts.

Variable wave_write : bytes -> answer bytes.

(** Stream complete: the call-back returns with the flag set, whatever
    [wave] does; the buffers and the bound stay. *)
Lemma on_stream_read_complete_effect (p : proc) :
  exists p',
    on_stream_read_complete wave_write p = (p', Ok tt) /\
    stream_name (self p') = stream_name (self p) /\
    start_fragment (self p') = start_fragment (self p) /\
    end_fragment (self p') = end_fragment (self p) /\
    past_end_fragment (self p') = true /\
    from_audio_fragments (self p') = from_audio_fragments (self p) /\
    to_audio_fragments (self p') = to_audio_fragments (self p).
Proof.
  destruct p as [[name start stop tags flag from_track to_track wav_to
                    wav_from] calls0].
  unfold_py. cbn.
  destruct to_track as [| y to_track]; cbn;
    [| destruct (wave_write (y :: to_track)); cbn;
       [eexists; repeat split; reflexivity |]];
    (destruct from_track as [| x from_track]; cbn;
     [| destruct (wave_write (x :: from_track)); cbn];
     eexists; repeat split; reflexivity).
Qed.

(** Every event: the call-back returns; bound and names stay; the flag is
    the old one or the event's; the buffers grow by the event's spans. *)
Lemma deliver_effect (e : kvs_event) (p : proc) :
  exists p',
    deliver wave_write e p = (p', Ok tt) /\
    end_fragment (self p') = end_fragment (self p) /\
    past_end_fragment (self p') =
      past_end_fragment (self p) || sets_flag_of (end_fragment (self p)) e /\
    from_audio_fragments (self p') =
      from_audio_fragments (self p)
        ++ from_span_of (end_fragment (self p)) e /\
    to_audio_fragments (self p') =
      to_audio_fragments (self p) ++ to_span_of (end_fragment (self p)) e.
Proof.
  destruct e as [dom | |]; cbn.
  - destruct (on_fragment_arrived_effect dom p)
      as (p' & H & _ & _ & He & Hf & Hfrom & Hto & _).
    exists p'. auto.
  - destruct (on_stream_read_complete_effect p)
      as (p' & H & _ & _ & He & Hf & Hfrom & Hto).
    exists p'. rewrite Hf, Hfrom, Hto, orb_true_r, !app_nil_r. auto.
  - exists p. unfold on_stream_read_exception, ret.
    rewrite orb_false_r, !app_nil_r. auto.
Qed.

Lemma deliver_all_app (evs evs' : list kvs_event) (p : proc) :
  deliver_all wave_write (evs ++ evs') p =
  deliver_all wave_write evs' (fst (deliver_all wave_write evs p)).
Proof.
  revert p. induction evs as [| e evs IH]; intros p; cbn; [reflexivity |].
  unfold bind.
  destruct (deliver_effect e p) as (p' & H & _). rewrite H. apply IH.
Qed.

(** A whole trace: it is delivered to the end; each buffer is the old
    one followed by the spans of the events, in arrival order. *)
Lemma deliver_all_effect (evs : list kvs_event) (p : proc) :
  exists p',
    deliver_all wave_write evs p = (p', Ok tt) /\
    end_fragment (self p') = end_fragment (self p) /\
    past_end_fragment (self p') =
      past_end_fragment (self p)
        || existsb (sets_flag_of (end_fragment (self p))) evs /\
    from_audio_fragments (self p') =
      from_audio_fragments (self p)
        ++ List.concat (map (from_span_of (end_fragment (self p))) evs) /\
    to_audio_fragments (self p') =
      to_audio_fragments (self p)
        ++ List.concat (map (to_span_of (end_fragment (self p))) evs).
Proof.
  revert p. induction evs as [| e evs IH]; intros p; cbn.
  - exists p. unfold ret. rewrite orb_false_r, !app_nil_r. auto.
  - unfold bind.
    destruct (deliver_effect e p) as (p1 & H & He & Hf & Hfrom & Hto).
    rewrite H.
    destruct (IH p1) as (p' & H' & He' & Hf' & Hfrom' & Hto').
    exists p'. rewrite H', He', Hf', Hfrom', Hto', He, Hf, Hfrom, Hto.
    rewrite orb_assoc, <- !app_assoc. auto.
Qed.

(** The wait ends, with the flag set, as soon as some event of the trace
    sets it. *)
Lemma await_returns (evs : list kvs_event) (lag : nat) (p : proc) :
  past_end_fragment (self p)
    || existsb (sets_flag_of (end_fragment (self p))) evs = true ->
  exists p',
    await wave_write evs lag p = (p', Ok tt) /\
    past_end_fragment (self p') = true.
Proof.
  revert p. induction evs as [| e evs IH]; intros p Hset.
  - cbn in *. rewrite orb_false_r in Hset. rewrite Hset.
    exists p. unfold ret. rewrite firstn_nil. cbn. auto.
  - cbn [await].
    destruct (past_end_fragment (self p)) eqn:Hp.
    + destruct (deliver_all_effect (firstn lag (e :: evs)) p)
        as (p' & H & _ & Hf & _).
      exists p'. rewrite H, Hf, Hp. auto.
    + destruct (deliver_effect e p) as (p1 & H & He & Hf & _).
      rewrite H. apply IH. rewrite Hf, He, Hp.
      cbn in Hset. rewrite <- orb_assoc. exact Hset.
Qed.

(** The wait never ends when no event of the trace sets the flag. *)
Lemma await_hangs (evs : list kvs_event) (lag : nat) (p : proc) :
  past_end_fragment (self p)
    || existsb (sets_flag_of (end_fragment (self p))) evs = false ->
  snd (await wave_write evs lag p) = Hang.
Proof.
  revert p. induction evs as [| e evs IH]; intros p Hset.
  - cbn in *. rewrite orb_false_r in Hset. now rewrite Hset.
  - cbn [await]. cbn in Hset.
    apply orb_false_elim in Hset as [Hp Hrest].
    apply orb_false_elim in Hrest as [He Hevs].
    rewrite Hp.
    destruct (deliver_effect e p) as (p1 & H & Hend & Hf & _).
    rewrite H. apply IH. now rewrite Hf, Hend, Hp, He, Hevs.
Qed.

End ConsumerFacts.

(* ================================================================== *)
(** ** [int] reads back what [str] prints *)













(* ================================================================== *)
(** ** The bound *)

Lemma is_past_end_gt (f b : Z) : is_past_end f b = true <-> f > b.
Proof. unfold is_past_end. rewrite Z.gtb_gt. lia. Qed.



(* ================================================================== *)
(** ** Stream complete *)

(** C4. Handling stream-complete always ends with the termination flag
    set and returns normally, whatever the packaging of either buffer does
    (the [wave] collaborator is arbitrary here and may raise on every
    call); so the wait of [service_loop] ends on every trace in which a
    stream-complete event occurs. *)
Theorem C4_stream_complete_sets_flag
  (wave_write : bytes -> answer bytes) (p : proc)
  (before after : list kvs_event) (lag : nat) :
  (exists p',
     on_stream_read_complete wave_write p = (p', Ok tt) /\
     past_end_fragment (self p') = true) /\
  (exists p',
     await wave_write (before ++ StreamReadComplete :: after) lag p
       = (p', Ok tt) /\
     past_end_fragment (self p') = true).
Proof.
  split.
  - destruct (on_stream_read_complete_effect wave_write p)
      as (p' & H & _ & _ & _ & Hflag & _).
    exists p'. auto.
  - apply await_returns. rewrite existsb_app. cbn.
    now rewrite !orb_true_r.
Qed.

(* ================================================================== *)
(** ** A fragment that raises *)

(** Where the [try] of [on_fragment_arrived] can raise, and what has been
    appended by then: never the TO span; the FROM span only when the
    exception comes from the TO extraction. *)
Lemma on_fragment_arrived_try_raises (dom : fragment_dom) (p : proc)
  (e : exn) :
  snd (on_fragment_arrived_try dom p) = Raise e ->
  sets_flag (end_fragment (self p)) dom = false /\
  to_span (end_fragment (self p)) dom = [] /\
  (raised (save_connect_fragment_audio_track_to_customer dom) = false ->
   from_span (end_fragment (self p)) dom = []).
Proof.
  destruct p as [c calls0].
  unfold sets_flag, from_span, to_span, fragment_number, span, raised.
  unfold_py. cbn.
  destruct (get_fragment_tags dom) as [e0 | tags]; cbn; [auto |].
  destruct (dict_get tags FRAGMENT_NUMBER) as [number |]; cbn; [| auto].
  unfold int_of_str.
  destruct (int_signed (strip (list_ascii_of_string number))) as [f |];
    cbn; [| auto].
  destruct (is_past_end f (end_fragment c)); cbn; [discriminate |].
  destruct (save_connect_fragment_audio_track_from_customer dom)
    as [e1 | [[| x d] |]]; cbn; auto;
  destruct (save_connect_fragment_audio_track_to_customer dom)
    as [e2 | [[| y d'] |]]; cbn; intros H; try discriminate;
  repeat split; auto; discriminate.
Qed.

(** The TO track of fragment 99 cannot be read: its FROM byte stays in the
    buffer, which the run without the fragment does not have. *)
Lemma C5_counterexample :
  let first := FragmentArrived (fragment "98" (Some [Byte.x41]) None) in
  let bad := fragment_bad_to "99" (Some [Byte.x42]) in
  let last := FragmentArrived (fragment "100" (Some [Byte.x43]) None) in
  let p := {| self := consumer "connect-vm" 97 100; io := [] |} in
  snd (on_fragment_arrived_try bad
         (fst (deliver_all wave_pcm [first] p))) = Raise ClientError /\
  from_audio_fragments
    (self (fst (deliver_all wave_pcm [first; FragmentArrived bad; last] p)))
    = [Byte.x41; Byte.x42; Byte.x43] /\
  from_audio_fragments
    (self (fst (deliver_all wave_pcm [first; last] p)))
    = [Byte.x41; Byte.x43] /\
  from_audio_fragments
    (self (fst (deliver_all wave_pcm [first; FragmentArrived bad; last] p)))
  <> from_audio_fragments
       (self (fst (deliver_all wave_pcm [first; last] p))).
Proof.
  cbv zeta. repeat split; try reflexivity. vm_compute. discriminate.
Qed.

(** C5 (amended). If handling a fragment raises, the exception is caught
    and the fragments after it are still processed to the end of the
    trace; the bytes accumulated before it stay as they were, at the
    front of each buffer; the TO buffer ends equal to the one of the same
    run with the fragment omitted, and so does the FROM buffer whenever
    the exception was raised before the TO-channel extraction (that
    extraction itself did not raise). *)
Theorem C5_failed_fragment_is_skipped
  (wave_write : bytes -> answer bytes) (before after : list kvs_event)
  (dom : fragment_dom) (p : proc) (e : exn) :
  snd (on_fragment_arrived_try dom (fst (deliver_all wave_write before p)))
    = Raise e ->
  snd (on_fragment_arrived dom (fst (deliver_all wave_write before p)))
    = Ok tt /\
  snd (deliver_all wave_write (before ++ FragmentArrived dom :: after) p)
    = Ok tt /\
  (exists kept,
     from_audio_fragments
       (self (fst (on_fragment_arrived dom
                     (fst (deliver_all wave_write before p)))))
     = from_audio_fragments (self (fst (deliver_all wave_write before p)))
         ++ kept) /\
  to_audio_fragments
    (self (fst (on_fragment_arrived dom
                  (fst (deliver_all wave_write before p)))))
  = to_audio_fragments (self (fst (deliver_all wave_write before p))) /\
  to_audio_fragments
    (self (fst (deliver_all wave_write
                  (before ++ FragmentArrived dom :: after) p)))
  = to_audio_fragments
      (self (fst (deliver_all wave_write (before ++ after) p))) /\
  (raised (save_connect_fragment_audio_track_to_customer dom) = false ->
   from_audio_fragments
     (self (fst (deliver_all wave_write
                   (before ++ FragmentArrived dom :: after) p)))
   = from_audio_fragments
       (self (fst (deliver_all wave_write (before ++ after) p)))).
Proof.
  intros Hraise.
  destruct (deliver_all_effect wave_write before p)
    as (mid & Hmid & Hstop & _).
  rewrite Hmid in *. cbn [fst] in *.
  destruct (on_fragment_arrived_try_raises dom mid e Hraise)
    as (_ & Hto & Hfrom).
  rewrite Hstop in Hto, Hfrom.
  destruct (on_fragment_arrived_effect dom mid)
    as (p1 & H1 & _ & _ & _ & _ & Hfrom1 & Hto1 & _).
  destruct (deliver_all_effect wave_write
              (before ++ FragmentArrived dom :: after) p)
    as (pw & Hw & _ & _ & Hfromw & Htow).
  destruct (deliver_all_effect wave_write (before ++ after) p)
    as (po & Ho & _ & _ & Hfromo & Htoo).
  rewrite H1, Hw, Ho. cbn [fst snd].
  repeat split.
  - eexists. exact Hfrom1.
  - rewrite Hto1, Hstop, Hto. apply app_nil_r.
  - rewrite Htow, Htoo, !map_app, !concat_app. cbn [map List.concat].
    unfold to_span_of at 2. now rewrite Hto.
  - intros Hok. rewrite Hfromw, Hfromo, !map_app, !concat_app.
    cbn [map List.concat]. unfold from_span_of at 2.
    now rewrite (Hfrom Hok).
Qed.

(** A fragment with an unreadable number between two good ones. *)
Lemma C5_witness :
  let first := FragmentArrived (fragment "98" (Some [Byte.x41]) None) in
  let bad := fragment "9x" (Some [Byte.x42]) None in
  let last := FragmentArrived (fragment "100" (Some [Byte.x43]) None) in
  let p := {| self := consumer "connect-vm" 97 100; io := [] |} in
  snd (on_fragment_arrived_try bad
         (fst (deliver_all wave_pcm [first] p))) = Raise ValueError /\
  from_audio_fragments
    (self (fst (deliver_all wave_pcm
                  ([first] ++ FragmentArrived bad :: [last]) p)))
  = from_audio_fragments
      (self (fst (deliver_all wave_pcm ([first] ++ [last]) p))).
Proof.
  split; [reflexivity |].
  exact (proj2 (proj2 (proj2 (proj2 (proj2
    (C5_failed_fragment_is_skipped wave_pcm
       [FragmentArrived (fragment "98" (Some [Byte.x41]) None)]
       [FragmentArrived (fragment "100" (Some [Byte.x43]) None)]
       (fragment "9x" (Some [Byte.x42]) None)
       {| self := consumer "connect-vm" 97 100; io := [] |}
       ValueError eq_refl))))) eq_refl).
Defined.

(* ================================================================== *)
(** ** Termination happens once *)

(** Along a list on which [f] holds somewhere, the prefixes on which it
    holds somewhere are exactly those of some length [k] or more. *)
Lemma existsb_firstn_threshold {A} (f : A -> bool) (l : list A) :
  existsb f l = true ->
  exists k : nat,
    (0 < k <= List.length l)%nat /\
    forall i : nat, existsb f (firstn i l) = true <-> (k <= i)%nat.
Proof.
  induction l as [| x l IH]; cbn; [discriminate |].
  destruct (f x) eqn:Hx; cbn.
  - intros _. exists 1%nat. split; [lia |].
    intros [| i]; cbn; [split; [discriminate | lia] |].
    rewrite Hx. cbn. split; [lia | reflexivity].
  - intros Hl. destruct (IH Hl) as (k & Hk & Hiff).
    exists (S k). split; [lia |].
    intros [| i]; cbn; [split; [discriminate | lia] |].
    rewrite Hx. cbn. rewrite Hiff. lia.
Qed.

(** After the flag is set by fragment 101, stream-complete still packages
    the FROM buffer; after stream-complete, a fragment in range still
    extends it. *)
Lemma C6_counterexample :
  let in_range := FragmentArrived (fragment "100" (Some [Byte.x41]) None) in
  let past := FragmentArrived (fragment "101" None None) in
  let p := {| self := consumer "connect-vm" 99 100; io := [] |} in
  let bound_reached := fst (deliver_all wave_pcm [in_range; past] p) in
  let exhausted := fst (deliver_all wave_pcm [StreamReadComplete] p) in
  (past_end_fragment (self bound_reached) = true /\
   from_customer_audio (self bound_reached) = None /\
   from_customer_audio
     (self (fst (deliver wave_pcm StreamReadComplete bound_reached)))
   <> from_customer_audio (self bound_reached)) /\
  (past_end_fragment (self exhausted) = true /\
   from_audio_fragments (self exhausted) = [] /\
   from_audio_fragments (self (fst (deliver wave_pcm in_range exhausted)))
   = [Byte.x41]).
Proof.
  cbv zeta. repeat split; try reflexivity. vm_compute. discriminate.
Qed.

(** C6 (amended). From a consumer that has not terminated, along every
    sequence of events followed by a stream-complete event the
    termination flag goes from unset to set at exactly one point and
    stays set; every event, also one delivered after termination, is
    handled without error and leaves the flag set. (Such an event is
    handled like any other: nothing in the call-backs looks at the
    flag.) *)
Theorem C6_terminates_once
  (wave_write : bytes -> answer bytes) (evs late : list kvs_event)
  (p : proc) :
  past_end_fragment (self p) = false ->
  (exists k : nat,
     (0 < k <= List.length (evs ++ [StreamReadComplete]))%nat /\
     forall i : nat,
       past_end_fragment
         (self (fst (deliver_all wave_write
                       (firstn i (evs ++ [StreamReadComplete])) p))) = true
       <-> (k <= i)%nat) /\
  (forall (e : kvs_event) (q : proc),
     snd (deliver wave_write e q) = Ok tt /\
     (past_end_fragment (self q) = true ->
      past_end_fragment (self (fst (deliver wave_write e q))) = true)) /\
  (exists p',
     deliver_all wave_write ((evs ++ [StreamReadComplete]) ++ late) p
       = (p', Ok tt) /\
     past_end_fragment (self p') = true).
Proof.
  intros Hp. split; [| split].
  - destruct (existsb_firstn_threshold
                (sets_flag_of (end_fragment (self p)))
                (evs ++ [StreamReadComplete])) as (k & Hk & Hiff).
    { rewrite existsb_app. cbn. now rewrite orb_true_r. }
    exists k. split; [exact Hk |]. intros i.
    destruct (deliver_all_effect wave_write
                (firstn i (evs ++ [StreamReadComplete])) p)
      as (p' & H & _ & Hflag & _).
    rewrite H. cbn [fst]. rewrite Hflag, Hp. cbn [orb]. apply Hiff.
  - intros e q.
    destruct (deliver_effect wave_write e q) as (q' & H & _ & Hflag & _).
    rewrite H. cbn [fst snd]. split; [reflexivity |].
    intros Hq. now rewrite Hflag, Hq.
  - destruct (deliver_all_effect wave_write
                ((evs ++ [StreamReadComplete]) ++ late) p)
      as (p' & H & _ & Hflag & _).
    exists p'. split; [exact H |].
    rewrite Hflag, !existsb_app. cbn. now rewrite !orb_true_r.
Qed.

(** One fragment in range, one past the end, stream complete, and a
    fragment still in flight. *)
Lemma C6_witness :
  let evs := [FragmentArrived (fragment "100" (Some [Byte.x41]) None);
              FragmentArrived (fragment "101" None None)] in
  let late := [FragmentArrived (fragment "102" None None)] in
  let p := {| self := consumer "connect-vm" 99 100; io := [] |} in
  past_end_fragment (self p) = false /\
  exists p',
    deliver_all wave_pcm ((evs ++ [StreamReadComplete]) ++ late) p
      = (p', Ok tt) /\
    past_end_fragment (self p') = true.
Proof.
  split; [reflexivity |].
  exact (proj2 (proj2
    (C6_terminates_once wave_pcm
       [FragmentArrived (fragment "100" (Some [Byte.x41]) None);
        FragmentArrived (fragment "101" None None)]
       [FragmentArrived (fragment "102" None None)]
       {| self := consumer "connect-vm" 99 100; io := [] |}
       eq_refl))).
Defined.

(* ================================================================== *)
(** ** The handler: expressions that only raise or return *)

Lemma getitem_str_answer (v : json) (k : string) :
  exists x : answer json, getitem_str v k = of_answer x.
Proof.
  destruct v; cbn; try (now exists (inl TypeError)).
  unfold dict_getitem. destruct (dict_get d k) as [x |];
    [now exists (inr x) | now exists (inl KeyError)].
Qed.

Lemma getitem_0_answer (v : json) :
  exists x : answer json, getitem_0 v = of_answer x.
Proof.
  destruct v as [| | | | s | l | d]; cbn;
    try (now exists (inl TypeError)).
  - destruct s; [now exists (inl IndexError) | now eexists (inr _)].
  - destruct l; [now exists (inl IndexError) | now eexists (inr _)].
  - now exists (inl KeyError).
Qed.

Lemma recording_field_answer (vm_record : json) (field : string) :
  exists x : answer json, recording_field vm_record field = of_answer x.
Proof.
  unfold recording_field.
  destruct (getitem_str_answer vm_record "Recordings") as ([e | r] & ->);
    cbn; [now exists (inl e) |].
  destruct (getitem_0_answer r) as ([e | r0] & ->); cbn;
    [now exists (inl e) | apply getitem_str_answer].
Qed.

Lemma int_of_str_answer (s : string) :
  exists x : answer Z, int_of_str s = of_answer x.
Proof.
  unfold int_of_str.
  destruct (int_signed (strip (list_ascii_of_string s))) as [z |];
    [now exists (inr z) | now exists (inl ValueError)].
Qed.

Lemma py_int_answer (v : json) : exists x : answer Z, py_int v = of_answer x.
Proof.
  destruct v as [| b | z | [| n | m e] | s | l | d]; cbn;
    try (now exists (inl TypeError)); try (now eexists (inr _)).
  - now exists (inl ValueError).
  - now exists (inl OverflowError).
  - apply int_of_str_answer.
Qed.

Lemma stream_name_of_answer (v : json) :
  exists x : answer string, stream_name_of v = of_answer x.
Proof.
  destruct v as [| | | | s | l | d]; cbn;
    try (now exists (inl AttributeError)).
  - unfold str_index, str_rindex.
    destruct (find_char "/" (list_ascii_of_string s));
      [| now exists (inl ValueError)].
    destruct (rfind_char "/" (list_ascii_of_string s));
      [now eexists (inr _) | now exists (inl ValueError)].
  - destruct (existsb _ l);
      [now exists (inl AttributeError) | now exists (inl ValueError)].
Qed.

Lemma get_default_answer (v : json) (k : string) (default : json) :
  exists x : answer json, get_default v k default = of_answer x.
Proof.
  destruct v; cbn; try (now exists (inl AttributeError)).
  now eexists (inr _).
Qed.

(* ================================================================== *)
(** ** The handler: one record *)

Section HandlerFacts.

Variable wave_write : bytes -> answer bytes.
Variable py_str : json -> string.
Variable BUCKET_NAME RECORDING_PATH : string.
Variable env : nat -> record_env.

Lemma extract_record_pure (record : kinesis_record) (s : batch) :
  exists x : answer (json * json),
    extract_record record s = (s, of_answer x).
Proof.
  unfold extract_record, bind, lift, ret.
  destruct record as [e | vm_record]; cbn; [now exists (inl e) |].
  destruct (getitem_str_answer vm_record "ContactId") as ([e | cid] & ->);
    cbn; [now exists (inl e) | now eexists (inr _)].
Qed.

Lemma evaluate_flag_cases (vm_record contact_id : json) (s : batch) :
  evaluate_flag py_str vm_record contact_id s = (s, Ok true) \/
  (exists e, evaluate_flag py_str vm_record contact_id s = (s, Raise e)) \/
  evaluate_flag py_str vm_record contact_id s
    = (incr_processed (set_result (msg_already_processed py_str contact_id) s),
       Ok false) \/
  evaluate_flag py_str vm_record contact_id s
    = (incr_processed (set_result (msg_flag_not_valid py_str contact_id) s),
       Ok false).
Proof.
  unfold evaluate_flag, bind, lift, ret, modify.
  destruct (getitem_str_answer vm_record "Attributes") as ([e | a] & ->);
    cbn; [right; left; now exists e |].
  destruct (get_default_answer a "vm_flag" (JStr "99")) as ([e | f] & ->);
    cbn; [right; left; now exists e |].
  destruct (eq_str f "1"); [now left |].
  destruct (eq_str f "0"); cbn; [right; right; now left |].
  right; right; now right.
Qed.

Lemma extract_kvs_info_pure (vm_record : json) (s : batch) :
  exists x : answer (string * Z * Z),
    extract_kvs_info vm_record s = (s, of_answer x).
Proof.
  unfold extract_kvs_info, bind, lift, ret.
  destruct (recording_field_answer vm_record "Location") as ([e | a] & ->);
    cbn; [now exists (inl e) |].
  destruct (stream_name_of_answer a) as ([e | name] & ->);
    cbn; [now exists (inl e) |].
  destruct (recording_field_answer vm_record "FragmentStartNumber")
    as ([e | n1] & ->); cbn; [now exists (inl e) |].
  destruct (py_int_answer n1) as ([e | z1] & ->);
    cbn; [now exists (inl e) |].
  destruct (recording_field_answer vm_record "FragmentStopNumber")
    as ([e | n2] & ->); cbn; [now exists (inl e) |].
  destruct (py_int_answer n2) as ([e | z2] & ->);
    cbn; [now exists (inl e) | now eexists (inr _)].
Qed.

Lemma extract_vm_tags_pure (vm_record : json) (s : batch) :
  exists x : answer string,
    extract_vm_tags py_str vm_record s = (s, of_answer x).
Proof.
  unfold extract_vm_tags, bind, lift, ret.
  destruct (get_default_answer vm_record "Attributes" (JObj []))
    as ([e | a] & ->); cbn; [now exists (inl e) |].
  destruct a; cbn; try (now exists (inl AttributeError)).
  now eexists (inr _).
Qed.

Lemma write_audio_cases (contact_id : json) (stream : string)
  (start stop : Z) (tagging : string) (s : batch) :
  let m := write_audio wave_write BUCKET_NAME RECORDING_PATH env
             contact_id stream start stop tagging in
  (exists cs e, m s = (set_calls cs s, Raise e)) \/
  (exists cs, m s = (incr_processed (set_calls cs s), Ok tt)) \/
  (exists c cs0 cs,
     snd (service_loop wave_write (kvs (env (total_record_count s)))
            {| self := c; io := cs0 |}) = Hang /\
     m s = (set_calls cs s, Hang)).
Proof.
  cbv zeta. unfold write_audio, bind, gets, on_processor, new_consumer.
  cbn -[service_loop].
  destruct (kvs_client_error (kvs (env (total_record_count s))));
    cbn -[service_loop]; [left; now eexists _, _ |].
  match goal with
  | |- context [service_loop wave_write ?k ?p] =>
      destruct (service_loop wave_write k p) as [p1 [[] | e |]] eqn:Hloop
  end; cbn.
  - destruct (utc_now (env (total_record_count s))) as [[year month] day].
    unfold lift, modify. cbn.
    destruct contact_id; cbn; try (left; now eexists _, _).
    destruct (from_customer_audio (self p1)); cbn;
      [| left; now eexists _, _].
    destruct (put_object_error (env (total_record_count s))); cbn;
      [left; now eexists _, _ | right; left; now eexists].
  - left; now eexists _, _.
  - right; right.
    match type of Hloop with
    | service_loop _ _ {| self := ?c; io := ?cs0 |} = _ => exists c, cs0
    end.
    eexists. split; [exact (f_equal snd Hloop) | reflexivity].
Qed.

(** Every record ends in one of the five ways. *)
Ltac simp_stage :=
  cbn -[evaluate_flag extract_kvs_info extract_vm_tags write_audio].

Lemma process_record_handled (record : kinesis_record) (s : batch) :
  handled wave_write py_str env (incr_total s)
    (process_record wave_write py_str BUCKET_NAME RECORDING_PATH env
       record s).
Proof.
  unfold process_record, retrieve_and_store, bind, modify, attempt.
  generalize (incr_total s) as s1. intros s1.
  destruct (extract_record_pure record s1) as ([e | [vm cid]] & ->); simp_stage.
  { apply handled_failed. now left. }
  destruct (evaluate_flag_cases vm cid s1)
    as [-> | [(e & ->) | [-> | ->]]]; simp_stage.
  2: { apply handled_failed. right; right; right. exists cid. now left. }
  2: { apply (handled_skipped _ _ _ _ cid). now left. }
  2: { apply (handled_skipped _ _ _ _ cid). now right. }
  destruct (extract_kvs_info_pure vm s1)
    as ([e | [[stream start] stop]] & ->); simp_stage.
  { apply handled_failed. right; now left. }
  destruct (extract_vm_tags_pure vm s1) as ([e | tagging] & ->); simp_stage.
  { apply handled_failed. right; right; now left. }
  destruct (write_audio_cases cid stream start stop tagging s1)
    as [(cs & e & ->) | [(cs & ->) | (c & cs0 & cs & Hhang & ->)]]; simp_stage.
  - apply handled_not_stored.
  - apply handled_stored.
  - eapply handled_blocked. exact Hhang.
Qed.

End HandlerFacts.

(* ================================================================== *)
(** ** The handler: the whole batch *)


Section BatchFacts.

Variable wave_write : bytes -> answer bytes.
Variable py_str : json -> string.
Variable BUCKET_NAME RECORDING_PATH : string.
Variable env : nat -> record_env.

Lemma handled_total (s1 b : batch) (r : res unit) :
  handled wave_write py_str env s1 (b, r) ->
  total_record_count b = total_record_count s1.
Proof. inversion 1; reflexivity. Qed.






Lemma loop_total (records : list kinesis_record) (s b : batch) :
  for_records wave_write py_str BUCKET_NAME RECORDING_PATH env records s
  = (b, Ok tt) ->
  total_record_count b = (total_record_count s + List.length records)%nat.
Proof.
  revert s. induction records as [| record records IH]; intros s; cbn.
  - unfold ret. intros [= <-]. lia.
  - unfold bind.
    pose proof (process_record_handled wave_write py_str
      BUCKET_NAME RECORDING_PATH env record s) as H.
    destruct (process_record wave_write py_str BUCKET_NAME RECORDING_PATH env
                record s) as [b1 [[] | e' |]];
      try discriminate.
    intros Hrest. rewrite (IH _ Hrest), (handled_total _ _ _ H). cbn. lia.
Qed.


End BatchFacts.




(* ================================================================== *)
(** ** The stream name in the location *)

Lemma list_ascii_app (a b : string) :
  list_ascii_of_string (a ++ b)
  = (list_ascii_of_string a ++ list_ascii_of_string b)%list.
Proof. induction a as [| c a IH]; cbn; [reflexivity | now rewrite IH]. Qed.

Lemma find_char_none (c : ascii) (l : list ascii) :
  ~ In c l -> find_char c l = None.
Proof.
  induction l as [| x l IH]; cbn; [reflexivity |]. intros Hin.
  destruct (Ascii.eqb_spec x c) as [-> | _]; [exfalso; auto |].
  rewrite IH; auto.
Qed.

Lemma find_char_app (c : ascii) (pre rest : list ascii) :
  ~ In c pre -> find_char c (pre ++ c :: rest) = Some (List.length pre).
Proof.
  induction pre as [| x pre IH]; cbn; intros Hin.
  - now rewrite Ascii.eqb_refl.
  - destruct (Ascii.eqb_spec x c) as [-> | _]; [exfalso; auto |].
    rewrite IH; auto.
Qed.

Lemma rfind_char_none (c : ascii) (l : list ascii) :
  ~ In c l -> rfind_char c l = None.
Proof.
  induction l as [| x l IH]; cbn; [reflexivity |]. intros Hin.
  rewrite IH by auto.
  destruct (Ascii.eqb_spec x c) as [-> | _]; [exfalso; auto | reflexivity].
Qed.

Lemma rfind_char_app (c : ascii) (l post : list ascii) :
  ~ In c post -> rfind_char c (l ++ c :: post) = Some (List.length l).
Proof.
  intros Hin. induction l as [| x l IH]; cbn.
  - rewrite (rfind_char_none c post Hin). now rewrite Ascii.eqb_refl.
  - now rewrite IH.
Qed.

Lemma firstn_length_app {A} (l r : list A) :
  firstn (List.length l) (l ++ r) = l.
Proof. induction l; cbn; [reflexivity | now f_equal]. Qed.

Lemma skipn_past (c : ascii) (pre rest : list ascii) :
  skipn (List.length pre + 1) (pre ++ c :: rest) = rest.
Proof. induction pre; cbn; auto. Qed.

Lemma rfind_char_second (c : ascii) (pre mid post : list ascii) :
  ~ In c post ->
  rfind_char c (pre ++ c :: mid ++ c :: post)
  = Some (List.length pre + 1 + List.length mid)%nat.
Proof.
  intros Hpost.
  replace (pre ++ c :: mid ++ c :: post)%list
    with ((pre ++ c :: mid) ++ c :: post)%list
    by (now rewrite <- app_assoc).
  rewrite (rfind_char_app _ _ _ Hpost), length_app. cbn [List.length].
  f_equal. lia.
Qed.

(** Between the first and the last of two or more slashes. *)
Lemma stream_name_between (pre mid post : string) :
  ~ In "/"%char (list_ascii_of_string pre) ->
  ~ In "/"%char (list_ascii_of_string post) ->
  stream_name_of (JStr (pre ++ "/" ++ mid ++ "/" ++ post)) = Ok mid.
Proof.
  intros Hpre Hpost. unfold stream_name_of, str_index, str_rindex, str_slice.
  rewrite !list_ascii_app. cbn [list_ascii_of_string Datatypes.app].
  rewrite (find_char_app _ _ _ Hpre), (rfind_char_second _ _ _ _ Hpost).
  rewrite skipn_past.
  replace (List.length (list_ascii_of_string pre) + 1
           + List.length (list_ascii_of_string mid)
           - (List.length (list_ascii_of_string pre) + 1))%nat
    with (List.length (list_ascii_of_string mid)) by lia.
  rewrite firstn_length_app. now rewrite string_of_list_ascii_of_string.
Qed.

(** A single slash: the slice is empty. *)
Lemma stream_name_single (pre post : string) :
  ~ In "/"%char (list_ascii_of_string pre) ->
  ~ In "/"%char (list_ascii_of_string post) ->
  stream_name_of (JStr (pre ++ "/" ++ post)) = Ok "".
Proof.
  intros Hpre Hpost. unfold stream_name_of, str_index, str_rindex, str_slice.
  rewrite !list_ascii_app. cbn [list_ascii_of_string Datatypes.app].
  rewrite (find_char_app _ _ _ Hpre), (rfind_char_app _ _ _ Hpost).
  replace (List.length (list_ascii_of_string pre)
           - (List.length (list_ascii_of_string pre) + 1))%nat
    with O by lia.
  reflexivity.
Qed.

(** No slash: [index] raises. *)
Lemma stream_name_none (location : string) :
  ~ In "/"%char (list_ascii_of_string location) ->
  stream_name_of (JStr location) = Raise ValueError.
Proof.
  intros Hno. unfold stream_name_of, str_index.
  now rewrite (find_char_none _ _ Hno).
Qed.

Lemma extract_record_ok (vm_record contact_id : json) (s : batch) :
  getitem_str vm_record "ContactId" = Ok contact_id ->
  extract_record (inr vm_record) s = (s, Ok (vm_record, contact_id)).
Proof.
  intros Hid. unfold extract_record, bind, lift, ret. cbn. now rewrite Hid.
Qed.

(** The loop body up to the flag, in terms of what the flag stage does. *)
Lemma process_record_flag
  (wave_write : bytes -> answer bytes) (py_str : json -> string)
  (BUCKET_NAME RECORDING_PATH : string) (env : nat -> record_env)
  (vm_record contact_id : json) (s : batch) :
  getitem_str vm_record "ContactId" = Ok contact_id ->
  process_record wave_write py_str BUCKET_NAME RECORDING_PATH env
    (inr vm_record) s
  = match evaluate_flag py_str vm_record contact_id (incr_total s) with
    | (s', Ok true) =>
        retrieve_and_store wave_write py_str BUCKET_NAME RECORDING_PATH env
          vm_record contact_id s'
    | (s', Ok false) => (s', Ok tt)
    | (s', Raise _) => (set_result (msg_flag_error py_str contact_id) s', Ok tt)
    | (s', Hang) => (s', Hang)
    end.
Proof.
  intros Hid. unfold process_record, bind, modify, attempt.
  rewrite (extract_record_ok _ _ _ Hid).
  destruct (evaluate_flag py_str vm_record contact_id (incr_total s))
    as [s' [[|] | e |]]; reflexivity.
Qed.

(** C10. The stream name is the part of the location strictly between
    its first and its last slash; with a single slash it is the empty
    string and the extraction goes on to the fragment numbers; with no
    slash the extraction raises, the record gets the message
    "Failed to extract KVS info", and nothing is called: no consumer is
    created. *)
Theorem C10_stream_name_between_slashes (pre mid post : string) :
  ~ In "/"%char (list_ascii_of_string pre) ->
  ~ In "/"%char (list_ascii_of_string post) ->
  stream_name_of (JStr (pre ++ "/" ++ mid ++ "/" ++ post)) = Ok mid /\
  stream_name_of (JStr (pre ++ "/" ++ post)) = Ok "" /\
  stream_name_of (JStr pre) = Raise ValueError /\
  (forall (vm_record first last : json) (start stop : Z) (s : batch),
     recording_field vm_record "Location" = Ok (JStr (pre ++ "/" ++ post)) ->
     recording_field vm_record "FragmentStartNumber" = Ok first ->
     py_int first = Ok start ->
     recording_field vm_record "FragmentStopNumber" = Ok last ->
     py_int last = Ok stop ->
     extract_kvs_info vm_record s = (s, Ok ("", start, stop))) /\
  (forall (wave_write : bytes -> answer bytes) (py_str : json -> string)
     (BUCKET_NAME RECORDING_PATH : string) (env : nat -> record_env)
     (vm_record contact_id : json) (s : batch),
     getitem_str vm_record "ContactId" = Ok contact_id ->
     evaluate_flag py_str vm_record contact_id (incr_total s)
       = (incr_total s, Ok true) ->
     recording_field vm_record "Location" = Ok (JStr pre) ->
     process_record wave_write py_str BUCKET_NAME RECORDING_PATH env
       (inr vm_record) s
     = (set_result MSG_KVS_INFO (incr_total s), Ok tt) /\
     calls (fst (process_record wave_write py_str BUCKET_NAME RECORDING_PATH
                   env (inr vm_record) s)) = calls s).
Proof.
  intros Hpre Hpost.
  split; [now apply stream_name_between |].
  split; [now apply stream_name_single |].
  split; [now apply stream_name_none |].
  split.
  - intros vm_record first last start stop s Hloc Hfirst Hstart Hlast Hstop.
    unfold extract_kvs_info, bind, lift, ret.
    rewrite Hloc, (stream_name_single pre post Hpre Hpost), Hfirst, Hstart,
      Hlast, Hstop. reflexivity.
  - intros wave_write py_str BUCKET_NAME RECORDING_PATH env vm_record
      contact_id s Hid Hflag Hloc.
    assert (Hrun :
      process_record wave_write py_str BUCKET_NAME RECORDING_PATH env
        (inr vm_record) s
      = (set_result MSG_KVS_INFO (incr_total s), Ok tt)).
    { rewrite (process_record_flag _ _ _ _ _ _ _ _ Hid), Hflag.
      unfold retrieve_and_store, attempt, extract_kvs_info, bind, lift.
      rewrite Hloc, (stream_name_none pre Hpre). reflexivity. }
    split; [exact Hrun | now rewrite Hrun].
Qed.

(** The location of a Connect recording, one with a single slash, and one
    with none. *)
Lemma C10_witness :
  ~ In "/"%char (list_ascii_of_string "arn:aws:kinesisvideo:stream") /\
  ~ In "/"%char (list_ascii_of_string "1700000000") /\
  stream_name_of (JStr "arn:aws:kinesisvideo:stream/connect-vm/1700000000")
    = Ok "connect-vm" /\
  stream_name_of (JStr "arn:aws:kinesisvideo:stream/1700000000") = Ok "" /\
  stream_name_of (JStr "arn:aws:kinesisvideo:stream") = Raise ValueError.
Proof.
  assert (Hpre : ~ In "/"%char
                     (list_ascii_of_string "arn:aws:kinesisvideo:stream")).
  { cbn. intros H.
    repeat (destruct H as [H | H]; [discriminate H |]). exact H. }
  assert (Hpost : ~ In "/"%char (list_ascii_of_string "1700000000")).
  { cbn. intros H.
    repeat (destruct H as [H | H]; [discriminate H |]). exact H. }
  split; [exact Hpre |]. split; [exact Hpost |].
  pose proof (C10_stream_name_between_slashes
                "arn:aws:kinesisvideo:stream" "connect-vm" "1700000000"
                Hpre Hpost) as (Hmid & Hone & Hnone & _).
  split; [exact Hmid |]. split; [exact Hone | exact Hnone].
Defined.

(* ================================================================== *)
(** ** Routing on the flag *)

(** C8. For a decoded record with a contact id and an attribute mapping,
    the flag "1" sends the record on to the retrieval and storage stages;
    the flag "0" records "voicemail already processed"; any other value,
    and a mapping without the flag, records "voicemail flag not valid";
    in the two skipping cases the record is counted as processed and
    nothing is called: no consumer is created, so no buffer exists or
    changes, and neither the stream nor the storage is touched. *)
Theorem C8_flag_routing
  (wave_write : bytes -> answer bytes) (py_str : json -> string)
  (BUCKET_NAME RECORDING_PATH : string) (env : nat -> record_env)
  (vm_record contact_id : json) (attributes : list (string * json))
  (s : batch) :
  getitem_str vm_record "ContactId" = Ok contact_id ->
  getitem_str vm_record "Attributes" = Ok (JObj attributes) ->
  let vm_flag := match dict_get attributes "vm_flag" with
                 | Some v => v
                 | None => JStr "99"
                 end in
  let run := process_record wave_write py_str BUCKET_NAME RECORDING_PATH env
               (inr vm_record) s in
  (vm_flag = JStr "1" ->
   run = retrieve_and_store wave_write py_str BUCKET_NAME RECORDING_PATH env
           vm_record contact_id (incr_total s)) /\
  (vm_flag = JStr "0" ->
   run = (incr_processed
            (set_result (msg_already_processed py_str contact_id)
               (incr_total s)), Ok tt) /\
   calls (fst run) = calls s) /\
  (vm_flag <> JStr "1" -> vm_flag <> JStr "0" ->
   run = (incr_processed
            (set_result (msg_flag_not_valid py_str contact_id)
               (incr_total s)), Ok tt) /\
   calls (fst run) = calls s) /\
  (dict_get attributes "vm_flag" = None ->
   run = (incr_processed
            (set_result (msg_flag_not_valid py_str contact_id)
               (incr_total s)), Ok tt)).
Proof.
  intros Hid Hattr vm_flag run.
  assert (Hrun : run =
    match (if eq_str vm_flag "1" then (incr_total s, Ok true)
           else if eq_str vm_flag "0"
           then (incr_processed
                   (set_result (msg_already_processed py_str contact_id)
                      (incr_total s)), Ok false)
           else (incr_processed
                   (set_result (msg_flag_not_valid py_str contact_id)
                      (incr_total s)), Ok false))
    with
    | (s', Ok true) =>
        retrieve_and_store wave_write py_str BUCKET_NAME RECORDING_PATH env
          vm_record contact_id s'
    | (s', Ok false) => (s', Ok tt)
    | (s', Raise _) => (set_result (msg_flag_error py_str contact_id) s', Ok tt)
    | (s', Hang) => (s', Hang)
    end).
  { unfold run. rewrite (process_record_flag _ _ _ _ _ _ _ _ Hid).
    unfold evaluate_flag, bind, lift, ret, modify. rewrite Hattr.
    cbn [get_default]. fold vm_flag.
    destruct (eq_str vm_flag "1"); [reflexivity |].
    destruct (eq_str vm_flag "0"); reflexivity. }
  assert (Hneq : forall lit, vm_flag <> JStr lit -> eq_str vm_flag lit = false).
  { intros lit Hne. destruct vm_flag as [| | | | f | |]; cbn; try reflexivity.
    destruct (String.eqb_spec f lit) as [-> | _]; [congruence | reflexivity]. }
  split; [| split; [| split]].
  - intros Hflag. now rewrite Hrun, Hflag.
  - intros Hflag. now rewrite Hrun, Hflag.
  - intros Hnot1 Hnot0.
    now rewrite Hrun, (Hneq "1" Hnot1), (Hneq "0" Hnot0).
  - intros Hnone. rewrite Hrun. unfold vm_flag. now rewrite Hnone.
Qed.

(** A record already processed, in a batch that has seen one record. *)
Lemma C8_witness :
  let vm_record :=
    JObj [("ContactId", JStr "c-2");
          ("Attributes", JObj [("vm_lang", JStr "en"); ("vm_flag", JStr "0")])]
  in
  let s := incr_processed (incr_total start_of_batch) in
  getitem_str vm_record "ContactId" = Ok (JStr "c-2") /\
  process_record wave_pcm str_of_scalar "voicemail" "recordings/"
    (fun _ => env_of [] 0) (inr vm_record) s
  = ({| response_container :=
          [("Record #2 result",
            "ContactID: c-2 - IGNORE - voicemail already processed")];
        total_record_count := 2;
        processed_record_count := 2;
        calls := [] |}, Ok tt).
Proof.
  split; [reflexivity |].
  exact (proj1 (proj1 (proj2
    (C8_flag_routing wave_pcm str_of_scalar "voicemail" "recordings/"
       (fun _ => env_of [] 0)
       (JObj [("ContactId", JStr "c-2");
              ("Attributes",
               JObj [("vm_lang", JStr "en"); ("vm_flag", JStr "0")])])
       (JStr "c-2") [("vm_lang", JStr "en"); ("vm_flag", JStr "0")]
       (incr_processed (incr_total start_of_batch))
       eq_refl eq_refl)) eq_refl)).
Defined.

(* ================================================================== *)
(** ** The tagging string *)

Lemma append_assoc (a b c : string) :
  ((a ++ b) ++ c = a ++ (b ++ c))%string.
Proof. induction a as [| x a IH]; cbn; [reflexivity | now rewrite IH]. Qed.

Lemma append_nil_r (a : string) : (a ++ "" = a)%string.
Proof. induction a as [| x a IH]; cbn; [reflexivity | now rewrite IH]. Qed.

Lemma tag_loop_fold (py_str : json -> string) (items : list (string * json))
  (container : string) :
  tag_loop py_str items container
  = (container
       ++ fold_right (fun item rest => tag_of py_str item ++ rest) "" items)
    %string.
Proof.
  revert container. induction items as [| [key value] items IH];
    intros container; cbn [tag_loop fold_right].
  - now rewrite append_nil_r.
  - rewrite IH. unfold tag_of at 2. cbn [fst snd].
    destruct (startswith "vm_" key); [| reflexivity].
    now rewrite !append_assoc.
Qed.

(** C7 (what the code does). The tagging string is the concatenation, in
    the order of the attribute mapping, of [key=value&] for the keys that
    start with [vm_]: every pair is followed by the separator, the last
    one too, since the value of [rstrip] is not assigned. For the
    attributes [vm_flag = 1], [agent = a-7], [vm_lang = en] the object is
    stored with the tagging [vm_flag=1&vm_lang=en&], not
    [vm_flag=1&vm_lang=en]. *)
Theorem C7_tagging_keeps_trailing_separator :
  (forall (py_str : json -> string) (items : list (string * json)),
     tag_loop py_str items ""
     = fold_right (fun item rest => (tag_of py_str item ++ rest)%string)
         "" items) /\
  (forall (py_str : json -> string) (attributes : list (string * json))
     (rest : list (string * json)) (s : batch),
     extract_vm_tags py_str (JObj (("Attributes", JObj attributes) :: rest)) s
     = (s, Ok (tag_loop py_str attributes ""))) /\
  (let attributes := [("vm_flag", JStr "1"); ("agent", JStr "a-7");
                      ("vm_lang", JStr "en")] in
   let events := [FragmentArrived (fragment "100" (Some [Byte.x41]) None);
                  StreamReadComplete] in
   let run := lambda_handler wave_pcm str_of_scalar "voicemail" "recordings/"
                (fun _ => env_of events 0)
                [contact_record "c-1" attributes LOCATION "99" "100"] in
   map tagging_of (filter is_put_object (calls (fst run)))
     = [Some "vm_flag=1&vm_lang=en&"] /\
   rstrip_amp "vm_flag=1&vm_lang=en&" = "vm_flag=1&vm_lang=en" /\
   "vm_flag=1&vm_lang=en&" <> "vm_flag=1&vm_lang=en").
Proof.
  split; [| split].
  - intros py_str items. now rewrite tag_loop_fold.
  - reflexivity.
  - cbv zeta. repeat split; try reflexivity. discriminate.
Qed.

(* ================================================================== *)
(** ** The report *)

(** C1 (what the code does). The total count is the number of records,
    but the storing stage never writes to the result mapping: a record
    whose audio is stored is counted as processed and gets no entry. Of
    three records, the first and third stored and the second skipped on
    its flag, the report holds the single entry of the second. *)
Theorem C1_stored_record_has_no_entry :
  (forall (wave_write : bytes -> answer bytes) (BUCKET_NAME
      RECORDING_PATH : string) (env : nat -> record_env) (contact_id : json)
     (stream : string) (start stop : Z) (tagging : string) (s : batch),
     response_container
       (fst (write_audio wave_write BUCKET_NAME RECORDING_PATH env
               contact_id stream start stop tagging s))
     = response_container s) /\
  (let events := [FragmentArrived (fragment "100" (Some [Byte.x41]) None);
                  StreamReadComplete] in
   let stored := contact_record "c-1" [("vm_flag", JStr "1")] LOCATION
                   "99" "100" in
   let skipped := contact_record "c-2" [("vm_flag", JStr "0")] LOCATION
                    "99" "100" in
   let run := lambda_handler wave_pcm str_of_scalar "voicemail" "recordings/"
                (fun _ => env_of events 0) [stored; skipped; stored] in
   snd run
   = Ok {| statusCode := 200;
           status := "Complete. Processed 3 of 3 records.";
           recordResults :=
             [("Record #2 result",
               "ContactID: c-2 - IGNORE - voicemail already processed")] |} /\
   List.length (filter is_put_object (calls (fst run))) = 2%nat /\
   total_record_count (fst run) = 3%nat /\
   List.length (response_container (fst run)) = 1%nat).
Proof.
  split.
  - intros.
    destruct (write_audio_cases wave_write BUCKET_NAME RECORDING_PATH env
                contact_id stream start stop tagging s)
      as [(cs & e & ->) | [(cs & ->) | (c & cs0 & cs & _ & ->)]];
      reflexivity.
  - cbv zeta. repeat split; reflexivity.
Qed.

(* ================================================================== *)
(** ** Fragments 100 and 101 against the bound 100 *)

(** C2 (what the code does). Fragment 100 carries [A] for the FROM
    channel, fragment 101 follows, the bound is 100 and no other event
    arrives. The FROM buffer is [A], the TO buffer is empty, the flag is
    set by fragment 101 and neither extraction is attempted on it. But
    only [on_stream_read_complete] packages the buffers: the wait ends
    with [from_customer_audio] still [None], so [getvalue] raises, storage
    is never called, and the record ends as "Failed to write audio to
    S3". *)
Theorem C2_bound_reached_stores_nothing
  (wave_write : bytes -> answer bytes) (py_str : json -> string)
  (A : bytes) (from101 to101 : option bytes) (lag : nat) :
  let f100 := fragment "100" (Some A) None in
  let f101 := fragment "101" from101 to101 in
  let stream := stream_of [FragmentArrived f100; FragmentArrived f101] lag in
  let run := service_loop wave_write stream
               {| self := consumer "connect-vm" 99 100; io := [] |} in
  let surroundings := {| kvs := stream; utc_now := ("2024", "01", "05");
                         put_object_error := None |} in
  let batch_run :=
    lambda_handler wave_write py_str "voicemail" "recordings/"
      (fun _ => surroundings)
      [contact_record "c-1" [("vm_flag", JStr "1")] LOCATION "99" "100"] in
  (snd run = Ok tt /\
   from_audio_fragments (self (fst run)) = A /\
   to_audio_fragments (self (fst run)) = [] /\
   past_end_fragment (self (fst run)) = true /\
   ~ In (FromCustomerTrack f101) (io (fst run)) /\
   ~ In (ToCustomerTrack f101) (io (fst run)) /\
   from_customer_audio (self (fst run)) = None /\
   to_customer_audio (self (fst run)) = None) /\
  (filter is_put_object (calls (fst batch_run)) = [] /\
   snd batch_run
   = Ok {| statusCode := 200;
           status := "Complete. Processed 0 of 1 records.";
           recordResults :=
             [("Record #1 result", msg_s3_failed py_str (JStr "c-1"))] |}).
Proof.
  cbv zeta.
  destruct lag, A as [| a A]; (split; [| split; reflexivity]);
    repeat split; try reflexivity;
    cbn; intros H;
    repeat (destruct H as [H | H]; [discriminate H |]); exact H.
Qed.

(* ================================================================== *)
(** ** Runs *)

(** Packaging fails: the artifact stays [None], the flag is set. *)
Example stream_complete_with_broken_wave :
  let p := {| self := consumer "connect-vm" 99 100; io := [] |} in
  let run := deliver_all wave_broken
               [FragmentArrived (fragment "100" (Some [Byte.x41]) None);
                StreamReadComplete] p in
  snd run = Ok tt /\
  past_end_fragment (self (fst run)) = true /\
  from_audio_fragments (self (fst run)) = [Byte.x41] /\
  from_customer_audio (self (fst run)) = None.
Proof. cbv zeta. repeat split; reflexivity. Qed.

(** A fragment that cannot be parsed at all adds nothing. *)
Example corrupt_fragment_adds_nothing :
  let p := {| self := consumer "connect-vm" 97 100; io := [] |} in
  let run := deliver_all wave_pcm
               [FragmentArrived (fragment "98" (Some [Byte.x41]) None);
                FragmentArrived fragment_corrupt;
                FragmentArrived (fragment "100" (Some [Byte.x43])
                                   (Some [Byte.x44]));
                StreamReadComplete] p in
  snd run = Ok tt /\
  from_audio_fragments (self (fst run)) = [Byte.x41; Byte.x43] /\
  to_audio_fragments (self (fst run)) = [Byte.x44] /\
  option_map (@List.length Byte.byte) (from_customer_audio (self (fst run)))
  = Some 46%nat.
Proof. cbv zeta. repeat split; reflexivity. Qed.

(** A location without a slash, one with a single slash, and a payload
    that does not decode, in one batch. *)
Example locations_in_a_batch :
  let events := [FragmentArrived (fragment "100" (Some [Byte.x41]) None);
                 StreamReadComplete] in
  let attributes := [("vm_flag", JStr "1")] in
  let run := lambda_handler wave_pcm str_of_scalar "voicemail" "recordings/"
               (fun _ => env_of events 0)
               [contact_record "c-1" attributes "connect-vm" "99" "100";
                inl ValueError;
                contact_record "c-3" attributes "stream/1700" "99" "100"] in
  snd run
  = Ok {| statusCode := 200;
          status := "Complete. Processed 1 of 3 records.";
          recordResults :=
            [("Record #1 result", "Failed to extract KVS info");
             ("Record #2 result", "Failed to extract record and/or decode")]
       |} /\
  hd_error (calls (fst run)) = Some (NewConsumer "" 99 100).
Proof. cbv zeta. split; reflexivity. Qed.

(** Fragments 100 and 101 followed by stream-complete: whether the
    recording is stored depends on whether the polling loop sees the flag
    before or after the stream-complete call-back has run. *)
Example bound_reached_then_stream_complete :
  let events := [FragmentArrived (fragment "100" (Some [Byte.x41]) None);
                 FragmentArrived (fragment "101" None None);
                 StreamReadComplete] in
  let record := contact_record "c-1" [("vm_flag", JStr "1")] LOCATION
                  "99" "100" in
  let results lag :=
    response_container
      (fst (lambda_handler wave_pcm str_of_scalar "voicemail" "recordings/"
              (fun _ => env_of events lag) [record])) in
  results 0%nat
  = [("Record #1 result", "ContactID: c-1 - Failed to write audio to S3")] /\
  results 1%nat = [].
Proof. cbv zeta. split; reflexivity. Qed.

(* ================================================================== *)
(** ** More on the consumer *)

Ltac fragment_cases dom c :=
  unfold_py; cbn;
  let tags' := fresh "tags" in
  let number' := fresh "number" in
  let f' := fresh "f" in
  destruct (get_fragment_tags dom) as [? | tags']; cbn;
  [| destruct (dict_get tags' FRAGMENT_NUMBER) as [number' |]; cbn;
     [unfold int_of_str;
      destruct (int_signed (strip (list_ascii_of_string number')))
        as [f' |]; cbn;
      [destruct (is_past_end f' (end_fragment c)) eqn:?Hpast; cbn;
       [| destruct (save_connect_fragment_audio_track_from_customer dom)
            as [? | [[| ? ?] |]]; cbn;
          destruct (save_connect_fragment_audio_track_to_customer dom)
            as [? | [[| ? ?] |]]; cbn] |] |]].

(** The call-backs make no storage call and leave the artifacts of a
    fragment arrival alone. *)
Lemma on_fragment_arrived_no_put (dom : fragment_dom) (p : proc) :
  filter is_put_object (io (fst (on_fragment_arrived dom p)))
  = filter is_put_object (io p).
Proof.
  destruct p as [c calls0]. fragment_cases dom c;
    rewrite ?filter_app; cbn; now rewrite ?app_nil_r.
Qed.

(** What stream-complete does to the two artifacts. *)
Lemma on_stream_read_complete_artifacts
  (wave_write : bytes -> answer bytes) (p : proc) :
  from_customer_audio (self (fst (on_stream_read_complete wave_write p)))
  = match to_audio_fragments (self p),
          wave_write (to_audio_fragments (self p)) with
    | _ :: _, inl _ => from_customer_audio (self p)
    | _, _ =>
        match from_audio_fragments (self p) with
        | [] => from_customer_audio (self p)
        | _ :: _ =>
            match wave_write (from_audio_fragments (self p)) with
            | inr wav => Some wav
            | inl _ => from_customer_audio (self p)
            end
        end
    end /\
  to_customer_audio (self (fst (on_stream_read_complete wave_write p)))
  = match to_audio_fragments (self p) with
    | [] => to_customer_audio (self p)
    | _ :: _ =>
        match wave_write (to_audio_fragments (self p)) with
        | inr wav => Some wav
        | inl _ => to_customer_audio (self p)
        end
    end /\
  filter is_put_object (io (fst (on_stream_read_complete wave_write p)))
  = filter is_put_object (io p).
Proof.
  destruct p as [[name start stop tags flag from_track to_track wav_to
                    wav_from] calls0].
  unfold_py. cbn.
  destruct to_track as [| y to_track]; cbn;
    [| destruct (wave_write (y :: to_track)); cbn];
    try (repeat split; rewrite ?filter_app; cbn; now rewrite ?app_nil_r);
    (destruct from_track as [| x from_track]; cbn;
     [| destruct (wave_write (x :: from_track)); cbn];
     repeat split; rewrite ?filter_app; cbn; now rewrite ?app_nil_r).
Qed.

Lemma deliver_no_put (wave_write : bytes -> answer bytes) (e : kvs_event)
  (p : proc) :
  filter is_put_object (io (fst (deliver wave_write e p)))
  = filter is_put_object (io p).
Proof.
  destruct e as [dom | |]; cbn.
  - apply on_fragment_arrived_no_put.
  - apply on_stream_read_complete_artifacts.
  - reflexivity.
Qed.

Lemma deliver_all_no_put (wave_write : bytes -> answer bytes)
  (evs : list kvs_event) (p : proc) :
  filter is_put_object (io (fst (deliver_all wave_write evs p)))
  = filter is_put_object (io p).
Proof.
  revert p. induction evs as [| e evs IH]; intros p; cbn; [reflexivity |].
  unfold bind. pose proof (deliver_no_put wave_write e p) as He.
  destruct (deliver_effect wave_write e p) as (p1 & H & _).
  rewrite H in *. cbn [fst] in He. now rewrite IH.
Qed.

(** What the wait returns is the state after some prefix of the trace. *)
Lemma await_prefix (wave_write : bytes -> answer bytes)
  (evs : list kvs_event) (lag : nat) (p p' : proc) :
  await wave_write evs lag p = (p', Ok tt) ->
  exists n : nat, p' = fst (deliver_all wave_write (firstn n evs) p).
Proof.
  revert p. induction evs as [| e evs IH]; intros p; cbn [await].
  - destruct (past_end_fragment (self p)); [| discriminate].
    rewrite firstn_nil. cbn. intros [= <-]. now exists O.
  - destruct (past_end_fragment (self p)).
    + intros H. exists lag. now rewrite H.
    + destruct (deliver_effect wave_write e p) as (p1 & H1 & _).
      rewrite H1. intros H. destruct (IH p1 H) as (n & ->).
      exists (S n). cbn. unfold bind. now rewrite H1.
Qed.

(** X1. Each buffer after a trace is the buffer before it followed by the
    spans the fragment processor returned for the fragments that were in
    range, in arrival order; a trace delivered in two parts gives the
    same buffers as delivered at once. *)
Theorem X1_buffers_in_arrival_order
  (wave_write : bytes -> answer bytes) (evs evs' : list kvs_event)
  (p : proc) :
  from_audio_fragments (self (fst (deliver_all wave_write evs p)))
  = from_audio_fragments (self p)
      ++ List.concat (map (from_span_of (end_fragment (self p))) evs) /\
  to_audio_fragments (self (fst (deliver_all wave_write evs p)))
  = to_audio_fragments (self p)
      ++ List.concat (map (to_span_of (end_fragment (self p))) evs) /\
  deliver_all wave_write (evs ++ evs') p
  = deliver_all wave_write evs' (fst (deliver_all wave_write evs p)).
Proof.
  destruct (deliver_all_effect wave_write evs p)
    as (p' & H & _ & _ & Hfrom & Hto).
  rewrite H. cbn [fst]. repeat split; auto.
  rewrite deliver_all_app, H. reflexivity.
Qed.

(** X2. The wait of [service_loop] never ends exactly when the flag is
    unset at the start and no event of the trace sets it: no fragment
    numbered past the end and no stream-complete. A read error does not
    count: [on_stream_read_exception] only logs. *)
Theorem X2_wait_blocks_iff_flag_never_set
  (wave_write : bytes -> answer bytes) (evs : list kvs_event) (lag : nat)
  (p : proc) :
  (snd (await wave_write evs lag p) = Hang
   <-> past_end_fragment (self p) = false /\
       forall e, In e evs ->
         sets_flag_of (end_fragment (self p)) e = false) /\
  sets_flag_of (end_fragment (self p)) StreamReadException = false /\
  deliver wave_write StreamReadException p = (p, Ok tt).
Proof.
  split; [| split; reflexivity].
  destruct (past_end_fragment (self p)
            || existsb (sets_flag_of (end_fragment (self p))) evs) eqn:Hset.
  - destruct (await_returns wave_write evs lag p Hset) as (p' & H & _).
    rewrite H. cbn. split; [discriminate |]. intros [Hp Hall].
    rewrite Hp in Hset. cbn in Hset.
    apply existsb_exists in Hset as (e & Hin & He).
    rewrite (Hall e Hin) in He. discriminate.
  - split; [| intros _; now apply await_hangs].
    intros _. apply orb_false_elim in Hset as [Hp Hevs]. split; [exact Hp |].
    intros e Hin. destruct (sets_flag_of (end_fragment (self p)) e) eqn:He;
      [| reflexivity].
    assert (existsb (sets_flag_of (end_fragment (self p))) evs = true)
      by (apply existsb_exists; eauto).
    congruence.
Qed.

Lemma await_complete_last
  (wave_write : bytes -> answer bytes) (evs : list kvs_event) (lag : nat)
  (p : proc) :
  past_end_fragment (self p) = false ->
  existsb (sets_flag_of (end_fragment (self p))) evs = false ->
  await wave_write (evs ++ [StreamReadComplete]) lag p
  = deliver_all wave_write (evs ++ [StreamReadComplete]) p.
Proof.
  revert p. induction evs as [| e evs IH]; intros p Hp Hevs.
  - cbn [Datatypes.app await]. rewrite Hp.
    destruct (on_stream_read_complete_effect wave_write p)
      as (p' & H & _ & _ & _ & Hflag & _).
    cbn [deliver deliver_all]. unfold bind. rewrite H.
    cbn [await]. rewrite Hflag, firstn_nil. reflexivity.
  - cbn [Datatypes.app await deliver_all]. rewrite Hp. unfold bind.
    cbn in Hevs. apply orb_false_elim in Hevs as [He Hrest].
    destruct (deliver_effect wave_write e p) as (p1 & H & Hend & Hflag & _).
    rewrite H. apply IH.
    + now rewrite Hflag, Hp, He.
    + now rewrite Hend.
Qed.

(** X3. When the only event that sets the flag is a stream-complete at
    the end of the trace, what [service_loop] hands back does not depend
    on when the polling loop looks: it is the state after the whole
    trace. *)
Theorem X3_complete_last_is_independent_of_poll
  (wave_write : bytes -> answer bytes) (evs : list kvs_event) (lag : nat)
  (p : proc) :
  past_end_fragment (self p) = false ->
  existsb (sets_flag_of (end_fragment (self p))) evs = false ->
  await wave_write (evs ++ [StreamReadComplete]) lag p
  = deliver_all wave_write (evs ++ [StreamReadComplete]) p.
Proof. exact (await_complete_last wave_write evs lag p). Qed.

Lemma X3_witness :
  let evs := [FragmentArrived (fragment "99" (Some [Byte.x41]) None);
              StreamReadException;
              FragmentArrived (fragment "100" (Some [Byte.x42]) None)] in
  let p := {| self := consumer "connect-vm" 98 100; io := [] |} in
  existsb (sets_flag_of (end_fragment (self p))) evs = false /\
  await wave_pcm (evs ++ [StreamReadComplete]) 7 p
  = deliver_all wave_pcm (evs ++ [StreamReadComplete]) p.
Proof.
  split; [reflexivity |].
  exact (X3_complete_last_is_independent_of_poll wave_pcm
           [FragmentArrived (fragment "99" (Some [Byte.x41]) None);
            StreamReadException;
            FragmentArrived (fragment "100" (Some [Byte.x42]) None)]
           7 {| self := consumer "connect-vm" 98 100; io := [] |}
           eq_refl eq_refl).
Defined.

(** A stream that ends in a read error after a fragment in range. *)
Lemma X2_witness :
  let evs := [FragmentArrived (fragment "100" (Some [Byte.x41]) None);
              StreamReadException] in
  let p := {| self := consumer "connect-vm" 99 100; io := [] |} in
  snd (await wave_pcm evs 0 p) = Hang.
Proof.
  apply (proj2 (proj1
    (X2_wait_blocks_iff_flag_never_set wave_pcm
       [FragmentArrived (fragment "100" (Some [Byte.x41]) None);
        StreamReadException]
       0 {| self := consumer "connect-vm" 99 100; io := [] |}))).
  split; [reflexivity |].
  intros e [<- | [<- | []]]; reflexivity.
Defined.

(** X4. Both buffers are packaged in one [try]: when packaging the TO
    buffer raises, the FROM buffer is not packaged, however much audio it
    holds; neither artifact changes, and the flag is set all the same. *)
Theorem X4_to_failure_leaves_from_unpackaged
  (wave_write : bytes -> answer bytes) (p : proc) (e : exn) :
  to_audio_fragments (self p) <> [] ->
  wave_write (to_audio_fragments (self p)) = inl e ->
  self (fst (on_stream_read_complete wave_write p))
  = set_past_end_fragment (self p) /\
  from_customer_audio (self (fst (on_stream_read_complete wave_write p)))
  = from_customer_audio (self p) /\
  io (fst (on_stream_read_complete wave_write p))
  = io p ++ [WaveWrite (to_audio_fragments (self p))].
Proof.
  destruct p as [[name start stop tags flag from_track to_track wav_to
                    wav_from] calls0].
  cbn [self to_audio_fragments]. intros Hne Hwave.
  destruct to_track as [| y to_track]; [congruence |].
  unfold_py. cbn. rewrite Hwave. cbn. repeat split.
Qed.

Lemma X4_witness :
  let p := fst (deliver_all wave_broken
                  [FragmentArrived
                     (fragment "100" (Some [Byte.x41]) (Some [Byte.x42]))]
                  {| self := consumer "connect-vm" 99 100; io := [] |}) in
  to_audio_fragments (self p) <> [] /\
  from_audio_fragments (self p) = [Byte.x41] /\
  from_customer_audio (self (fst (on_stream_read_complete wave_broken p)))
  = None.
Proof.
  split; [discriminate |]. split; [reflexivity |].
  exact (proj1 (proj2
    (X4_to_failure_leaves_from_unpackaged wave_broken
       (fst (deliver_all wave_broken
               [FragmentArrived
                  (fragment "100" (Some [Byte.x41]) (Some [Byte.x42]))]
               {| self := consumer "connect-vm" 99 100; io := [] |}))
       ClientError
       ltac:(discriminate) eq_refl))).
Defined.

(** An artifact exists only for a buffer that holds bytes. *)
Lemma artifact_needs_bytes (wave_write : bytes -> answer bytes)
  (evs : list kvs_event) (p : proc) :
  (from_audio_fragments (self p) = [] ->
   from_customer_audio (self p) = None) ->
  from_audio_fragments (self (fst (deliver_all wave_write evs p))) = [] ->
  from_customer_audio (self (fst (deliver_all wave_write evs p))) = None.
Proof.
  revert p. induction evs as [| e evs IH]; intros p Hinv; cbn; [exact Hinv |].
  unfold bind. destruct (deliver_effect wave_write e p)
    as (p1 & H & _ & _ & Hfrom & _).
  rewrite H. apply IH. intros Hempty.
  rewrite Hempty in Hfrom. symmetry in Hfrom.
  apply app_eq_nil in Hfrom as [Hold _].
  destruct e as [dom | |]; cbn in H.
  - destruct (on_fragment_arrived_effect dom p)
      as (p2 & H2 & _ & _ & _ & _ & _ & _ & _ & Hart).
    rewrite H2 in H. injection H as <-. rewrite Hart. auto.
  - pose proof (on_stream_read_complete_artifacts wave_write p)
      as (Hart & _).
    rewrite H in Hart. cbn [fst] in Hart. rewrite Hart, Hold.
    destruct (to_audio_fragments (self p));
      [| destruct (wave_write _)]; auto.
  - injection H as <-. auto.
Qed.

Lemma concat_all_nil {A B} (f : A -> list B) (l : list A) :
  (forall x, In x l -> f x = []) -> List.concat (map f l) = [].
Proof.
  induction l as [| x l IH]; cbn; intros Hall; [reflexivity |].
  rewrite (Hall x) by now left. apply IH. intros y Hy. apply Hall. now right.
Qed.

Lemma in_firstn {A} (n : nat) (l : list A) (x : A) :
  In x (firstn n l) -> In x l.
Proof.
  revert l. induction n as [| n IH]; intros [| y l]; cbn; try tauto.
  intros [-> | H]; [now left | right; now apply IH].
Qed.

Lemma silent_stream_no_artifact
  (wave_write : bytes -> answer bytes) (k : kvs_stream)
  (stream : string) (start stop : Z) (cs : list io_call) (p' : proc) :
  (forall e, In e (delivered k) -> from_span_of stop e = []) ->
  service_loop wave_write k
    {| self := consumer stream start stop; io := cs |} = (p', Ok tt) ->
  from_audio_fragments (self p') = [] /\
  from_customer_audio (self p') = None.
Proof.
  intros Hsilent. unfold service_loop, bind, gets, log_call, modify, lift.
  cbn -[await].
  destruct (data_endpoint_error k); cbn -[await]; [discriminate |].
  destruct (media_client_error k); cbn -[await]; [discriminate |].
  destruct (get_media_error k); cbn -[await]; [discriminate |].
  intros Hwait. apply await_prefix in Hwait as (n & ->).
  match goal with
  | |- context [deliver_all wave_write ?l ?q] =>
      assert (Hbuf :
        from_audio_fragments (self (fst (deliver_all wave_write l q))) = [])
  end.
  { match goal with
    | |- context [deliver_all wave_write ?l ?q] =>
        destruct (deliver_all_effect wave_write l q)
          as (q' & H & _ & _ & Hfrom & _)
    end.
    rewrite H. cbn [fst]. rewrite Hfrom. cbn.
    apply concat_all_nil. intros e Hin. apply Hsilent.
    exact (in_firstn _ _ _ Hin). }
  split; [exact Hbuf |].
  apply artifact_needs_bytes; [reflexivity | exact Hbuf].
Qed.

(** X5. A consumer whose stream carries no FROM-channel bytes in range
    never has a FROM artifact: whatever the trace and whenever the wait
    ends, [from_customer_audio] is still [None] when [service_loop]
    returns. *)
Theorem X5_no_from_bytes_no_artifact
  (wave_write : bytes -> answer bytes) (k : kvs_stream)
  (stream : string) (start stop : Z) (cs : list io_call) (p' : proc) :
  (forall e, In e (delivered k) -> from_span_of stop e = []) ->
  service_loop wave_write k
    {| self := consumer stream start stop; io := cs |} = (p', Ok tt) ->
  from_audio_fragments (self p') = [] /\
  from_customer_audio (self p') = None.
Proof.
  exact (silent_stream_no_artifact wave_write k stream start stop cs p').
Qed.

(** The agent speaks, the customer does not. *)
Lemma X5_witness :
  let k := stream_of
             [FragmentArrived (fragment "100" None (Some [Byte.x42]));
              StreamReadComplete] 0 in
  let run := service_loop wave_pcm k
               {| self := consumer "connect-vm" 99 100; io := [] |} in
  snd run = Ok tt /\
  to_customer_audio (self (fst run)) <> None /\
  from_customer_audio (self (fst run)) = None.
Proof.
  split; [reflexivity |]. split; [discriminate |].
  refine (proj2
    (X5_no_from_bytes_no_artifact wave_pcm
       (stream_of
          [FragmentArrived (fragment "100" None (Some [Byte.x42]));
           StreamReadComplete] 0)
       "connect-vm" 99 100 [] _ _ eq_refl)).
  intros e [<- | [<- | []]]; reflexivity.
Defined.

(** X6. On a fragment numbered past the end the call-back asks the
    fragment processor for the tags and for nothing else: neither track
    is extracted, both buffers stay as they are, the flag is set. *)
Theorem X6_past_end_fragment_is_not_extracted
  (dom : fragment_dom) (p : proc) (f : Z) :
  fragment_number dom = Ok f ->
  f > end_fragment (self p) ->
  io (fst (on_fragment_arrived dom p)) = io p ++ [GetFragmentTags dom] /\
  from_audio_fragments (self (fst (on_fragment_arrived dom p)))
  = from_audio_fragments (self p) /\
  to_audio_fragments (self (fst (on_fragment_arrived dom p)))
  = to_audio_fragments (self p) /\
  past_end_fragment (self (fst (on_fragment_arrived dom p))) = true.
Proof.
  destruct p as [c calls0]. unfold fragment_number, dict_getitem.
  cbn [self io]. intros Hnum Hgt. apply is_past_end_gt in Hgt.
  revert Hnum. fragment_cases dom c; intros Hnum; try discriminate;
    injection Hnum as <-; try congruence; repeat split.
Qed.

Lemma X6_witness :
  let dom := fragment "101" (Some [Byte.x42]) (Some [Byte.x43]) in
  let p := {| self := consumer "connect-vm" 99 100; io := [] |} in
  fragment_number dom = Ok 101 /\
  io (fst (on_fragment_arrived dom p)) = [GetFragmentTags dom].
Proof.
  split; [reflexivity |].
  exact (proj1
    (X6_past_end_fragment_is_not_extracted
       (fragment "101" (Some [Byte.x42]) (Some [Byte.x43]))
       {| self := consumer "connect-vm" 99 100; io := [] |} 101
       eq_refl eq_refl)).
Defined.

(** X7. The tags of a fragment are kept as the last good ones as soon as
    they are read, also when a later step of the same call-back raises; a
    fragment whose tags cannot be read changes nothing in the instance. *)
Theorem X7_last_good_fragment_tags
  (dom : fragment_dom) (p : proc) :
  (forall tags,
     get_fragment_tags dom = inr tags ->
     last_good_fragment_tags (self (fst (on_fragment_arrived dom p)))
     = Some tags) /\
  (forall e,
     get_fragment_tags dom = inl e ->
     on_fragment_arrived dom p
     = ({| self := self p; io := io p ++ [GetFragmentTags dom] |}, Ok tt)).
Proof.
  destruct p as [c calls0]. split.
  - intros t Ht. revert Ht.
    fragment_cases dom c; intros Ht; try discriminate;
      injection Ht as <-; reflexivity.
  - intros e He. unfold_py. cbn. rewrite He. reflexivity.
Qed.

(** A fragment whose number cannot be read, and one that cannot be
    parsed. *)
Lemma X7_witness :
  let p := {| self := consumer "connect-vm" 99 100; io := [] |} in
  last_good_fragment_tags
    (self (fst (on_fragment_arrived (fragment "9x" None None) p)))
  = Some [(FRAGMENT_NUMBER, "9x")] /\
  self (fst (on_fragment_arrived fragment_corrupt p)) = self p.
Proof.
  split.
  - exact (proj1
      (X7_last_good_fragment_tags (fragment "9x" None None)
         {| self := consumer "connect-vm" 99 100; io := [] |})
      [(FRAGMENT_NUMBER, "9x")] eq_refl).
  - exact (f_equal (fun r => self (fst r))
      (proj2
         (X7_last_good_fragment_tags fragment_corrupt
            {| self := consumer "connect-vm" 99 100; io := [] |})
         ClientError eq_refl)).
Defined.

(* ================================================================== *)
(** ** More on the handler: the storing stage *)

Lemma await_no_put (wave_write : bytes -> answer bytes)
  (evs : list kvs_event) (lag : nat) (p : proc) :
  filter is_put_object (io (fst (await wave_write evs lag p)))
  = filter is_put_object (io p).
Proof.
  revert p. induction evs as [| e evs IH]; intros p; cbn [await];
    destruct (past_end_fragment (self p)); try reflexivity;
    try apply deliver_all_no_put.
  pose proof (deliver_no_put wave_write e p) as He.
  destruct (deliver_effect wave_write e p) as (p1 & H & _).
  rewrite H in *. cbn [fst] in He. now rewrite IH.
Qed.

Lemma service_loop_no_put (wave_write : bytes -> answer bytes)
  (k : kvs_stream) (p : proc) :
  filter is_put_object (io (fst (service_loop wave_write k p)))
  = filter is_put_object (io p).
Proof.
  unfold service_loop, bind, gets, log_call, modify, lift. cbn -[await].
  destruct (data_endpoint_error k); cbn -[await];
    [rewrite filter_app; cbn; now rewrite app_nil_r |].
  destruct (media_client_error k); cbn -[await];
    [rewrite !filter_app; cbn; now rewrite !app_nil_r |].
  destruct (get_media_error k); cbn -[await];
    [rewrite !filter_app; cbn; now rewrite !app_nil_r |].
  rewrite await_no_put. cbn. rewrite !filter_app. cbn.
  now rewrite !app_nil_r.
Qed.

(** The storing stage, in terms of what [service_loop] hands back. *)
Lemma write_audio_steps
  (wave_write : bytes -> answer bytes) (BUCKET_NAME RECORDING_PATH : string)
  (env : nat -> record_env) (contact_id : json) (stream : string)
  (start stop : Z) (tagging : string) (s : batch) :
  let w := env (total_record_count s) in
  let opened := calls s ++ [NewConsumer stream start stop;
                            KinesisVideoClient] in
  write_audio wave_write BUCKET_NAME RECORDING_PATH env contact_id stream
    start stop tagging s
  = match kvs_client_error (kvs w) with
    | Some e => (set_calls opened s, Raise e)
    | None =>
        match service_loop wave_write (kvs w)
                {| self := consumer stream start stop; io := opened |} with
        | (p, Ok _) =>
            match contact_id with
            | JStr id =>
                match from_customer_audio (self p) with
                | Some wav =>
                    let cs := io p ++ [PutObject wav BUCKET_NAME
                                         (s3_key RECORDING_PATH (utc_now w) id)
                                         AUDIO_MIME_TYPE tagging] in
                    match put_object_error w with
                    | None => (incr_processed (set_calls cs s), Ok tt)
                    | Some e => (set_calls cs s, Raise e)
                    end
                | None => (set_calls (io p) s, Raise AttributeError)
                end
            | _ => (set_calls (io p) s, Raise TypeError)
            end
        | (p, Raise e) => (set_calls (io p) s, Raise e)
        | (p, Hang) => (set_calls (io p) s, Hang)
        end
    end.
Proof.
  cbv zeta. unfold write_audio, bind, gets, on_processor, new_consumer,
    s3_key, consumer.
  cbn -[service_loop].
  destruct (kvs_client_error (kvs (env (total_record_count s))));
    cbn -[service_loop]; [reflexivity |].
  match goal with
  | |- context [service_loop wave_write ?k ?p] =>
      destruct (service_loop wave_write k p) as [p1 [[] | e |]]
  end; cbn; try reflexivity.
  destruct (utc_now (env (total_record_count s))) as [[year month] day].
  unfold lift, modify. cbn.
  destruct contact_id; cbn; try reflexivity.
  destruct (from_customer_audio (self p1)); cbn; [| reflexivity].
  destruct (put_object_error (env (total_record_count s))); reflexivity.
Qed.

Lemma service_loop_opened (wave_write : bytes -> answer bytes)
  (k : kvs_stream) (p : proc) :
  data_endpoint_error k = None ->
  media_client_error k = None ->
  get_media_error k = None ->
  service_loop wave_write k p
  = await wave_write (delivered k) (poll_lag k)
      {| self := self p;
         io := ((io p ++ [GetDataEndpoint (stream_name (self p))])
                  ++ [KinesisVideoMediaClient])
                 ++ [GetMedia (stream_name (self p))
                       (start_fragment (self p))] |}.
Proof.
  intros H1 H2 H3. unfold service_loop, bind, gets, log_call, modify, lift.
  cbn -[await]. rewrite H1. cbn -[await]. rewrite H2. cbn -[await].
  rewrite H3. reflexivity.
Qed.

(** X8. A recording read to a final stream-complete, with FROM bytes in
    range and a [wave] that packages both buffers, is put to the bucket
    exactly once: body the packaged FROM buffer, key
    [{RECORDING_PATH}{year}/{month}/{day}/{ContactId}.wav], content type
    [audio/x-wav], the tagging string as built. If [put_object] accepts
    it the record is counted as processed; if [put_object] raises, the
    exception leaves the stage after the call and the count stays. *)
Theorem X8_recording_is_stored
  (wave_write : bytes -> answer bytes) (BUCKET_NAME RECORDING_PATH : string)
  (env : nat -> record_env) (id stream : string) (start stop : Z)
  (tagging : string) (s : batch) (evs : list kvs_event) (x : Byte.byte)
  (A wav : bytes) :
  kvs_client_error (kvs (env (total_record_count s))) = None ->
  data_endpoint_error (kvs (env (total_record_count s))) = None ->
  media_client_error (kvs (env (total_record_count s))) = None ->
  get_media_error (kvs (env (total_record_count s))) = None ->
  delivered (kvs (env (total_record_count s)))
  = evs ++ [StreamReadComplete] ->
  existsb (sets_flag_of stop) evs = false ->
  List.concat (map (from_span_of stop) evs) = x :: A ->
  raised (wave_write (List.concat (map (to_span_of stop) evs))) = false ->
  wave_write (x :: A) = inr wav ->
  exists cs : list io_call,
    filter is_put_object cs = filter is_put_object (calls s) /\
    write_audio wave_write BUCKET_NAME RECORDING_PATH env (JStr id) stream
      start stop tagging s
    = match put_object_error (env (total_record_count s)) with
      | None =>
          (incr_processed
             (set_calls
                (cs ++ [PutObject wav BUCKET_NAME
                          (s3_key RECORDING_PATH
                             (utc_now (env (total_record_count s))) id)
                          AUDIO_MIME_TYPE tagging]) s), Ok tt)
      | Some e =>
          (set_calls
             (cs ++ [PutObject wav BUCKET_NAME
                       (s3_key RECORDING_PATH
                          (utc_now (env (total_record_count s))) id)
                       AUDIO_MIME_TYPE tagging]) s, Raise e)
      end.
Proof.
  intros Hclient Hendpoint Hmedia Hget Htrace Hnone Hfrom Hto Hwav.
  pose proof (service_loop_no_put wave_write
                (kvs (env (total_record_count s)))
                {| self := consumer stream start stop;
                   io := calls s ++ [NewConsumer stream start stop;
                                     KinesisVideoClient] |}) as Hput.
  assert (Hloop : exists p2,
    service_loop wave_write (kvs (env (total_record_count s)))
      {| self := consumer stream start stop;
         io := calls s ++ [NewConsumer stream start stop;
                           KinesisVideoClient] |} = (p2, Ok tt) /\
    from_customer_audio (self p2) = Some wav).
  { rewrite (service_loop_opened _ _ _ Hendpoint Hmedia Hget), Htrace.
    rewrite await_complete_last by (first [reflexivity | exact Hnone]).
    rewrite deliver_all_app.
    match goal with
    | |- context [deliver_all wave_write evs ?q] =>
        destruct (deliver_all_effect wave_write evs q)
          as (p1 & H1 & _ & _ & Hfrom1 & Hto1)
    end.
    rewrite H1. cbn [fst self io consumer from_audio_fragments
                      to_audio_fragments end_fragment] in *.
    cbn [Datatypes.app] in Hfrom1, Hto1. rewrite Hfrom in Hfrom1.
    pose proof (on_stream_read_complete_artifacts wave_write p1)
      as (Hart & _).
    destruct (on_stream_read_complete_effect wave_write p1)
      as (p2 & H2 & _).
    cbn [deliver_all deliver]. unfold bind, ret.
    rewrite H2 in *. cbn [fst] in *. exists p2. split; [reflexivity |].
    rewrite Hart, Hfrom1, Hto1, Hwav.
    destruct (List.concat (map (to_span_of stop) evs)) as [| b l];
      [reflexivity |].
    destruct (wave_write (b :: l)); [discriminate | reflexivity]. }
  destruct Hloop as (p2 & Hloop & Hsome).
  rewrite Hloop in Hput. cbn [fst io] in Hput.
  exists (io p2). split.
  - rewrite Hput, !filter_app. cbn. now rewrite !app_nil_r.
  - rewrite write_audio_steps. cbv zeta. rewrite Hclient, Hloop, Hsome.
    reflexivity.
Qed.

(** One fragment in range with customer audio, then stream-complete. *)
Lemma X8_witness :
  let events := [FragmentArrived (fragment "100" (Some [Byte.x41]) None)] in
  let env := fun _ : nat => env_of (events ++ [StreamReadComplete]) 3 in
  exists cs : list io_call,
    snd (write_audio wave_pcm "voicemail" "recordings/" env (JStr "c-1")
           "connect-vm" 99 100 "vm_flag=1&" start_of_batch) = Ok tt /\
    calls (fst (write_audio wave_pcm "voicemail" "recordings/" env
                  (JStr "c-1") "connect-vm" 99 100 "vm_flag=1&"
                  start_of_batch))
    = cs ++ [PutObject
               (match wave_pcm [Byte.x41] with inr w => w | inl _ => [] end)
               "voicemail" "recordings/2024/01/05/c-1.wav" "audio/x-wav"
               "vm_flag=1&"].
Proof.
  destruct (X8_recording_is_stored wave_pcm "voicemail" "recordings/"
              (fun _ : nat =>
                 env_of
                   ([FragmentArrived (fragment "100" (Some [Byte.x41]) None)]
                      ++ [StreamReadComplete]) 3)
              "c-1" "connect-vm" 99 100 "vm_flag=1&" start_of_batch
              [FragmentArrived (fragment "100" (Some [Byte.x41]) None)]
              Byte.x41 []
              (match wave_pcm [Byte.x41] with inr w => w | inl _ => [] end)
              eq_refl eq_refl eq_refl eq_refl eq_refl eq_refl eq_refl
              eq_refl eq_refl) as (cs & _ & Hrun).
  exists cs. cbv zeta. rewrite Hrun. split; reflexivity.
Defined.








(* ================================================================== *)
(** ** More on the handler: the report *)

Lemma append_inv_tail (a b c : string) :
  (a ++ c = b ++ c)%string -> a = b.
Proof.
  intros H. apply (f_equal list_ascii_of_string) in H.
  rewrite !list_ascii_app in H. apply app_inv_tail in H.
  rewrite <- (string_of_list_ascii_of_string a),
          <- (string_of_list_ascii_of_string b).
  now rewrite H.
Qed.

Lemma dec_inj (n m : nat) : dec n = dec m -> n = m.
Proof.
  unfold dec. intros H.
  assert (Hu : Nat.to_uint n = Nat.to_uint m).
  { apply (f_equal NilEmpty.uint_of_string) in H.
    rewrite !NilEmpty.usu in H. now injection H. }
  rewrite <- (DecimalNat.Unsigned.of_to n), <- (DecimalNat.Unsigned.of_to m).
  now rewrite Hu.
Qed.

Lemma record_label_inj (n m : nat) :
  record_label n = record_label m -> n = m.
Proof.
  unfold record_label. intros H. cbn in H.
  injection H as H. apply append_inv_tail in H. now apply dec_inj.
Qed.

Lemma dict_set_fresh {V} (d : dict V) (k : string) (v : V) :
  ~ In k (map fst d) -> dict_set d k v = d ++ [(k, v)].
Proof.
  induction d as [| [k' v'] d IH]; cbn; intros Hnew; [reflexivity |].
  destruct (String.eqb_spec k' k) as [-> | _]; [exfalso; auto |].
  rewrite IH; auto.
Qed.

Lemma sorted_snoc (ns : list nat) (x : nat) :
  StronglySorted lt ns -> Forall (fun k => (k < x)%nat) ns ->
  StronglySorted lt (ns ++ [x]).
Proof.
  induction 1 as [| a ns Hs IH Ha]; cbn; intros Hall.
  - constructor; constructor.
  - inversion Hall; subst. constructor; [now apply IH |].
    apply Forall_app. split; [exact Ha | now constructor].
Qed.

(** Recording a result for the record just counted keeps the labels in
    order. *)
Lemma set_result_in_order (msg : string) (s : batch) :
  labelled_in_order (total_record_count s) (response_container s) ->
  labelled_in_order (S (total_record_count s))
    (response_container (set_result msg (incr_total s))) /\
  List.length (response_container (set_result msg (incr_total s)))
  = S (List.length (response_container s)).
Proof.
  intros (ns & Hkeys & Hsorted & Hrange). cbn.
  assert (Hfresh : ~ In (record_label (S (total_record_count s)))
                     (map fst (response_container s))).
  { rewrite Hkeys. intros Hin. apply in_map_iff in Hin as (k & Hk & Hin).
    apply record_label_inj in Hk. subst k.
    rewrite Forall_forall in Hrange. specialize (Hrange _ Hin). lia. }
  rewrite (dict_set_fresh _ _ _ Hfresh). split.
  - exists (ns ++ [S (total_record_count s)]). split; [| split].
    + rewrite !map_app, Hkeys. reflexivity.
    + apply sorted_snoc; [exact Hsorted |].
      eapply Forall_impl; [| exact Hrange]. cbn. intros k Hk. lia.
    + apply Forall_app. split.
      * eapply Forall_impl; [| exact Hrange]. cbn. intros k Hk. lia.
      * constructor; [lia | constructor].
  - rewrite length_app. cbn. lia.
Qed.

Lemma in_order_weaken (n : nat) (d : dict string) :
  labelled_in_order n d -> labelled_in_order (S n) d.
Proof.
  intros (ns & Hkeys & Hsorted & Hrange). exists ns. repeat split; auto.
  eapply Forall_impl; [| exact Hrange]. cbn. intros k Hk. lia.
Qed.

Section ReportFacts.

Variable wave_write : bytes -> answer bytes.
Variable py_str : json -> string.
Variable BUCKET_NAME RECORDING_PATH : string.
Variable env : nat -> record_env.

Lemma handled_in_order (s b : batch) (r : res unit) :
  handled wave_write py_str env (incr_total s) (b, r) ->
  labelled_in_order (total_record_count s) (response_container s) ->
  labelled_in_order (total_record_count b) (response_container b).
Proof.
  intros H Hs. inversion H; subst; cbn [total_record_count incr_total
    incr_processed set_result set_calls response_container].
  - apply (set_result_in_order msg s Hs).
  - apply (set_result_in_order msg s Hs).
  - apply (set_result_in_order (msg_s3_failed py_str contact_id) s Hs).
  - now apply in_order_weaken.
  - now apply in_order_weaken.
Qed.

Lemma handled_counts (s b : batch) :
  handled wave_write py_str env (incr_total s) (b, Ok tt) ->
  labelled_in_order (total_record_count s) (response_container s) ->
  (processed_record_count s <= total_record_count s
   /\ total_record_count s
      <= List.length (response_container s) + processed_record_count s
   /\ List.length (response_container s) <= total_record_count s)%nat ->
  (processed_record_count b <= total_record_count b
   /\ total_record_count b
      <= List.length (response_container b) + processed_record_count b
   /\ List.length (response_container b) <= total_record_count b)%nat.
Proof.
  intros H Hs (H1 & H2 & H3).
  inversion H; subst.
  - pose proof (proj2 (set_result_in_order msg s Hs)) as Hlen.
    cbn in Hlen |- *. lia.
  - pose proof (proj2 (set_result_in_order msg s Hs)) as Hlen.
    cbn in Hlen |- *. lia.
  - pose proof (proj2 (set_result_in_order
                         (msg_s3_failed py_str contact_id) s Hs)) as Hlen.
    cbn in Hlen |- *. lia.
  - cbn. lia.
Qed.

Lemma loop_in_order (records : list kinesis_record) (s : batch) :
  labelled_in_order (total_record_count s) (response_container s) ->
  labelled_in_order
    (total_record_count
       (fst (for_records wave_write py_str BUCKET_NAME RECORDING_PATH env
               records s)))
    (response_container
       (fst (for_records wave_write py_str BUCKET_NAME RECORDING_PATH env
               records s))).
Proof.
  revert s. induction records as [| record records IH]; intros s Hs; cbn;
    [exact Hs |].
  unfold bind.
  pose proof (process_record_handled wave_write py_str BUCKET_NAME
                RECORDING_PATH env record s) as H.
  destruct (process_record wave_write py_str BUCKET_NAME RECORDING_PATH env
              record s) as [b r].
  pose proof (handled_in_order _ _ _ H Hs) as Hb.
  destruct r as [[] | e |]; [now apply IH | exact Hb | exact Hb].
Qed.

Lemma loop_total_le (records : list kinesis_record) (s : batch) :
  (total_record_count
     (fst (for_records wave_write py_str BUCKET_NAME RECORDING_PATH env
             records s))
   <= total_record_count s + List.length records)%nat.
Proof.
  revert s. induction records as [| record records IH]; intros s; cbn;
    [lia |].
  unfold bind.
  pose proof (process_record_handled wave_write py_str BUCKET_NAME
                RECORDING_PATH env record s) as H.
  destruct (process_record wave_write py_str BUCKET_NAME RECORDING_PATH env
              record s) as [b r].
  pose proof (handled_total _ _ _ _ _ _ H) as Hb. cbn in Hb.
  destruct r as [[] | e |]; cbn; [| lia | lia].
  specialize (IH b). lia.
Qed.

Lemma loop_counts (records : list kinesis_record) (s b : batch) :
  for_records wave_write py_str BUCKET_NAME RECORDING_PATH env records s
  = (b, Ok tt) ->
  labelled_in_order (total_record_count s) (response_container s) ->
  (processed_record_count s <= total_record_count s
   /\ total_record_count s
      <= List.length (response_container s) + processed_record_count s
   /\ List.length (response_container s) <= total_record_count s)%nat ->
  (processed_record_count b <= total_record_count b
   /\ total_record_count b
      <= List.length (response_container b) + processed_record_count b
   /\ List.length (response_container b) <= total_record_count b)%nat.
Proof.
  revert s. induction records as [| record records IH]; intros s; cbn.
  - unfold ret. intros [= <-]. auto.
  - unfold bind.
    pose proof (process_record_handled wave_write py_str BUCKET_NAME
                  RECORDING_PATH env record s) as H.
    destruct (process_record wave_write py_str BUCKET_NAME RECORDING_PATH env
                record s) as [b1 [[] | e |]]; try discriminate.
    intros Hrest Hs Hc. apply (IH b1 Hrest).
    + exact (handled_in_order _ _ _ H Hs).
    + exact (handled_counts _ _ H Hs Hc).
Qed.

End ReportFacts.

Lemma start_in_order : labelled_in_order O (response_container start_of_batch).
Proof. exists []. repeat split; constructor. Qed.

Lemma sorted_labels_nodup (ns : list nat) :
  StronglySorted lt ns -> NoDup (map record_label ns).
Proof.
  induction 1 as [| a ns Hs IH Ha]; cbn; constructor; [| exact IH].
  intros Hin. apply in_map_iff in Hin as (k & Hk & Hin).
  apply record_label_inj in Hk. subst k.
  rewrite Forall_forall in Ha. specialize (Ha a Hin). lia.
Qed.

(** X10. Whatever happens to the records, the keys of the result mapping
    are labels [Record #k result] of records of the batch, in input
    order and without repetition: a later record never overwrites or
    precedes the entry of an earlier one. *)
Theorem X10_results_in_input_order
  (wave_write : bytes -> answer bytes) (py_str : json -> string)
  (BUCKET_NAME RECORDING_PATH : string) (env : nat -> record_env)
  (records : list kinesis_record) :
  (exists ns : list nat,
     map fst
       (response_container
          (fst (lambda_handler wave_write py_str BUCKET_NAME RECORDING_PATH
                  env records)))
     = map record_label ns /\
     StronglySorted lt ns /\
     Forall (fun k => (1 <= k <= List.length records)%nat) ns) /\
  NoDup
    (map fst
       (response_container
          (fst (lambda_handler wave_write py_str BUCKET_NAME RECORDING_PATH
                  env records)))).
Proof.
  unfold lambda_handler, bind, gets, ret.
  pose proof (loop_in_order wave_write py_str BUCKET_NAME RECORDING_PATH env
                records start_of_batch start_in_order) as (ns & Hk & Hs & Hr).
  pose proof (loop_total_le wave_write py_str BUCKET_NAME RECORDING_PATH env
                records start_of_batch) as Hle.
  cbn [total_record_count start_of_batch Nat.add] in Hle.
  assert (Hrange : Forall (fun k => (1 <= k <= List.length records)%nat) ns).
  { eapply Forall_impl; [| exact Hr]. cbn. intros k Hk'. lia. }
  destruct (for_records wave_write py_str BUCKET_NAME RECORDING_PATH env
              records start_of_batch) as [b [[] | e |]];
    cbn [fst] in *;
    (split; [exists ns; repeat split; auto
            | rewrite Hk; now apply sorted_labels_nodup]).
Qed.

(** X11. When the invocation returns, the total is the number of input
    records, the processed count does not exceed it, the mapping holds at
    most one entry per record, and every record is counted as processed
    or has an entry (a skipped record both); the summary line prints
    these two counters. *)
Theorem X11_report_counts
  (wave_write : bytes -> answer bytes) (py_str : json -> string)
  (BUCKET_NAME RECORDING_PATH : string) (env : nat -> record_env)
  (records : list kinesis_record) (b : batch) (report : response) :
  lambda_handler wave_write py_str BUCKET_NAME RECORDING_PATH env records
  = (b, Ok report) ->
  total_record_count b = List.length records /\
  (processed_record_count b <= List.length records)%nat /\
  (List.length (recordResults report) <= List.length records)%nat /\
  (List.length records
   <= List.length (recordResults report) + processed_record_count b)%nat /\
  status report
  = ("Complete. Processed " ++ dec (processed_record_count b) ++ " of "
       ++ dec (List.length records) ++ " records.")%string.
Proof.
  unfold lambda_handler, bind, gets, ret.
  destruct (for_records wave_write py_str BUCKET_NAME RECORDING_PATH env
              records start_of_batch) as [b1 [[] | e |]] eqn:Hloop;
    try discriminate.
  intros [= <- <-].
  pose proof (loop_total _ _ _ _ _ _ _ _ Hloop) as Htotal. cbn in Htotal.
  destruct (loop_counts _ _ _ _ _ _ _ _ Hloop start_in_order)
    as (H1 & H2 & H3); [cbn; lia |].
  cbn [recordResults status make_response]. rewrite <- Htotal.
  repeat split; auto.
Qed.

(** A record that does not decode and a skipped one. *)
Lemma X11_witness :
  let records := [inl ValueError;
                  contact_record "c-2" [("vm_flag", JStr "0")] LOCATION
                    "99" "100"] in
  let b := {| response_container :=
                [("Record #1 result",
                  "Failed to extract record and/or decode");
                 ("Record #2 result",
                  "ContactID: c-2 - IGNORE - voicemail already processed")];
              total_record_count := 2;
              processed_record_count := 1;
              calls := [] |} in
  lambda_handler wave_pcm str_of_scalar "voicemail" "recordings/"
    (fun _ => env_of [] 0) records = (b, Ok (make_response b)) /\
  status (make_response b) = "Complete. Processed 1 of 2 records.".
Proof.
  split; [reflexivity |].
  exact (proj2 (proj2 (proj2 (proj2
    (X11_report_counts wave_pcm str_of_scalar "voicemail" "recordings/"
       (fun _ => env_of [] 0)
       [inl ValueError;
        contact_record "c-2" [("vm_flag", JStr "0")] LOCATION "99" "100"]
       {| response_container :=
            [("Record #1 result", "Failed to extract record and/or decode");
             ("Record #2 result",
              "ContactID: c-2 - IGNORE - voicemail already processed")];
          total_record_count := 2;
          processed_record_count := 1;
          calls := [] |}
       (make_response
          {| response_container :=
               [("Record #1 result",
                 "Failed to extract record and/or decode");
                ("Record #2 result",
                 "ContactID: c-2 - IGNORE - voicemail already processed")];
             total_record_count := 2;
             processed_record_count := 1;
             calls := [] |})
       eq_refl))))).
Defined.

(* ================================================================== *)
(** ** More on the handler: records that fail early *)

(** X12. A record whose payload does not decode, decodes to something
    that is not an object, or to an object without [ContactId], gets the
    entry "Failed to extract record and/or decode"; it is counted in the
    total only, and nothing is called for it. *)
Theorem X12_undecodable_record
  (wave_write : bytes -> answer bytes) (py_str : json -> string)
  (BUCKET_NAME RECORDING_PATH : string) (env : nat -> record_env)
  (s : batch) :
  (forall e : exn,
     process_record wave_write py_str BUCKET_NAME RECORDING_PATH env
       (inl e) s = (set_result MSG_DECODE (incr_total s), Ok tt)) /\
  (forall vm_record : json,
     (forall d, vm_record <> JObj d) ->
     process_record wave_write py_str BUCKET_NAME RECORDING_PATH env
       (inr vm_record) s = (set_result MSG_DECODE (incr_total s), Ok tt)) /\
  (forall d : list (string * json),
     dict_get d "ContactId" = None ->
     process_record wave_write py_str BUCKET_NAME RECORDING_PATH env
       (inr (JObj d)) s = (set_result MSG_DECODE (incr_total s), Ok tt)).
Proof.
  split; [| split].
  - reflexivity.
  - intros vm Hnot.
    destruct vm; try reflexivity. exfalso. eapply Hnot. reflexivity.
  - intros d Hnone.
    unfold process_record, bind, modify, attempt, extract_record, lift, ret.
    cbn. unfold dict_getitem. now rewrite Hnone.
Qed.

Lemma X12_witness :
  process_record wave_pcm str_of_scalar "voicemail" "recordings/"
    (fun _ => env_of [] 0) (inr (JArr [JStr "c-1"])) start_of_batch
  = ({| response_container :=
          [("Record #1 result", "Failed to extract record and/or decode")];
        total_record_count := 1; processed_record_count := 0;
        calls := [] |}, Ok tt) /\
  process_record wave_pcm str_of_scalar "voicemail" "recordings/"
    (fun _ => env_of [] 0) (inr (JObj [("Attributes", JObj [])]))
    start_of_batch
  = ({| response_container :=
          [("Record #1 result", "Failed to extract record and/or decode")];
        total_record_count := 1; processed_record_count := 0;
        calls := [] |}, Ok tt).
Proof.
  split.
  - refine (proj1 (proj2
      (X12_undecodable_record wave_pcm str_of_scalar "voicemail"
         "recordings/" (fun _ => env_of [] 0) start_of_batch))
      (JArr [JStr "c-1"]) _).
    discriminate.
  - exact (proj2 (proj2
      (X12_undecodable_record wave_pcm str_of_scalar "voicemail"
         "recordings/" (fun _ => env_of [] 0) start_of_batch))
      [("Attributes", JObj [])] eq_refl).
Defined.

(** X13. A record with a contact id whose [Attributes] are missing or are
    not an object gets the entry "... An error occurred whilst evaluating
    Voicemail Flag"; unlike a record with an invalid flag it is not
    counted as processed; nothing is called for it. *)
Theorem X13_flag_cannot_be_read
  (wave_write : bytes -> answer bytes) (py_str : json -> string)
  (BUCKET_NAME RECORDING_PATH : string) (env : nat -> record_env)
  (d : list (string * json)) (contact_id : json) (s : batch) :
  dict_get d "ContactId" = Some contact_id ->
  match dict_get d "Attributes" with
  | Some (JObj _) => False
  | _ => True
  end ->
  process_record wave_write py_str BUCKET_NAME RECORDING_PATH env
    (inr (JObj d)) s
  = (set_result (msg_flag_error py_str contact_id) (incr_total s), Ok tt).
Proof.
  intros Hid Hattr.
  rewrite (process_record_flag _ _ _ _ _ _ contact_id)
    by (cbn; unfold dict_getitem; now rewrite Hid).
  unfold evaluate_flag, bind, lift. cbn. unfold dict_getitem.
  destruct (dict_get d "Attributes") as [[| | | | | |] |];
    try reflexivity; contradiction.
Qed.

Lemma X13_witness :
  process_record wave_pcm str_of_scalar "voicemail" "recordings/"
    (fun _ => env_of [] 0)
    (inr (JObj [("ContactId", JStr "c-1"); ("Attributes", JNull)]))
    start_of_batch
  = ({| response_container :=
          [("Record #1 result",
            "ContactID: c-1 - IGNORE - An error occurred whilst evaluating Voicemail Flag")];
        total_record_count := 1; processed_record_count := 0;
        calls := [] |}, Ok tt).
Proof.
  exact (X13_flag_cannot_be_read wave_pcm str_of_scalar "voicemail"
           "recordings/" (fun _ => env_of [] 0)
           [("ContactId", JStr "c-1"); ("Attributes", JNull)] (JStr "c-1")
           start_of_batch eq_refl I).
Defined.

(** X14. For a voicemail record, whatever makes the extraction of the
    stream details raise (no [Recordings], an empty list, a missing
    field, a location that is not a string or has no slash, a fragment
    number that [int] rejects) gives the entry "Failed to extract KVS
    info": the record is not counted as processed and no consumer is
    created. *)
Theorem X14_stream_details_cannot_be_read
  (wave_write : bytes -> answer bytes) (py_str : json -> string)
  (BUCKET_NAME RECORDING_PATH : string) (env : nat -> record_env)
  (vm_record contact_id : json) (s : batch) (e : exn) :
  getitem_str vm_record "ContactId" = Ok contact_id ->
  evaluate_flag py_str vm_record contact_id (incr_total s)
  = (incr_total s, Ok true) ->
  snd (extract_kvs_info vm_record (incr_total s)) = Raise e ->
  process_record wave_write py_str BUCKET_NAME RECORDING_PATH env
    (inr vm_record) s
  = (set_result MSG_KVS_INFO (incr_total s), Ok tt).
Proof.
  intros Hid Hflag Hraise.
  rewrite (process_record_flag _ _ _ _ _ _ _ _ Hid), Hflag.
  unfold retrieve_and_store, attempt.
  destruct (extract_kvs_info_pure vm_record (incr_total s)) as (x & Hx).
  rewrite Hx in *. destruct x; [reflexivity | discriminate].
Qed.

(** An empty list of recordings, and a stop number that is not one. *)
Lemma X14_witness :
  let empty := JObj [("ContactId", JStr "c-1");
                     ("Attributes", JObj [("vm_flag", JStr "1")]);
                     ("Recordings", JArr [])] in
  let bad_number := contact_record "c-2" [("vm_flag", JStr "1")] LOCATION
                      "99" "1e2" in
  snd (extract_kvs_info empty (incr_total start_of_batch))
  = Raise IndexError /\
  response_container
    (fst (process_record wave_pcm str_of_scalar "voicemail" "recordings/"
            (fun _ => env_of [] 0) (inr empty) start_of_batch))
  = [("Record #1 result", "Failed to extract KVS info")] /\
  process_record wave_pcm str_of_scalar "voicemail" "recordings/"
    (fun _ => env_of [] 0) bad_number start_of_batch
  = (set_result MSG_KVS_INFO (incr_total start_of_batch), Ok tt).
Proof.
  split; [reflexivity |]. split.
  - exact (f_equal (fun r => response_container (fst r))
      (X14_stream_details_cannot_be_read wave_pcm str_of_scalar "voicemail"
         "recordings/" (fun _ => env_of [] 0)
         (JObj [("ContactId", JStr "c-1");
                ("Attributes", JObj [("vm_flag", JStr "1")]);
                ("Recordings", JArr [])])
         (JStr "c-1") start_of_batch IndexError eq_refl eq_refl eq_refl)).
  - exact (X14_stream_details_cannot_be_read wave_pcm str_of_scalar
             "voicemail" "recordings/" (fun _ => env_of [] 0)
             (JObj [("ContactId", JStr "c-2");
                    ("Attributes", JObj [("vm_flag", JStr "1")]);
                    ("Recordings",
                     JArr [JObj [("Location", JStr LOCATION);
                                 ("FragmentStartNumber", JStr "99");
                                 ("FragmentStopNumber", JStr "1e2")]])])
             (JStr "c-2") start_of_batch ValueError eq_refl eq_refl eq_refl).
Defined.

(* ================================================================== *)
(** ** More on the handler: the tagging of a voicemail *)

Lemma tags_empty_or_separated (py_str : json -> string)
  (items : list (string * json)) :
  fold_right (fun item rest => (tag_of py_str item ++ rest)%string) "" items
  = "" \/
  exists body : string,
    fold_right (fun item rest => (tag_of py_str item ++ rest)%string) ""
      items
    = (body ++ "&")%string.
Proof.
  induction items as [| [key value] items IH]; cbn [fold_right];
    [now left |].
  destruct IH as [-> | (body & ->)].
  - rewrite append_nil_r. unfold tag_of. cbn [fst snd].
    destruct (startswith "vm_" key); [| now left].
    right. exists (key ++ "=" ++ py_str value)%string.
    now rewrite !append_assoc.
  - right. exists (tag_of py_str (key, value) ++ body)%string.
    now rewrite append_assoc.
Qed.

Lemma tags_of_vm_key_not_empty (py_str : json -> string)
  (items : list (string * json)) (key : string) (value : json) :
  startswith "vm_" key = true ->
  dict_get items key = Some value ->
  fold_right (fun item rest => (tag_of py_str item ++ rest)%string) "" items
  <> "".
Proof.
  intros Hvm. induction items as [| [k v] items IH]; cbn [dict_get fold_right];
    [discriminate |].
  destruct (String.eqb_spec k key) as [-> | _].
  - intros _. unfold tag_of. cbn [fst snd]. rewrite Hvm.
    destruct key; [discriminate Hvm | discriminate].
  - intros Hget Hempty. apply (IH Hget).
    destruct (tag_of py_str (k, v)); [exact Hempty | discriminate Hempty].
Qed.

(** X15. For every record that passes the flag check the tagging stage
    cannot fail (the message "Failed to extract vm tags" is never
    recorded for it) and its tagging string is never empty and always
    ends with the separator: it holds at least [vm_flag=...&]. *)
Theorem X15_tagging_of_a_voicemail
  (py_str : json -> string) (vm_record contact_id : json) (s s' : batch) :
  evaluate_flag py_str vm_record contact_id s = (s', Ok true) ->
  exists body : string,
    forall s2 : batch,
      extract_vm_tags py_str vm_record s2 = (s2, Ok (body ++ "&")%string).
Proof.
  unfold evaluate_flag, bind, lift, ret, modify.
  destruct vm_record as [| | | | | | d]; cbn; try discriminate.
  unfold dict_getitem.
  destruct (dict_get d "Attributes") as [a |] eqn:Hattr; [| discriminate].
  destruct a as [| | | | | | attrs]; cbn; try discriminate.
  destruct (dict_get attrs "vm_flag") as [flag |] eqn:Hflag;
    [| cbn; discriminate].
  destruct (eq_str flag "1") eqn:Hone;
    [| destruct (eq_str flag "0"); discriminate].
  intros _.
  destruct (tags_empty_or_separated py_str attrs) as [Hempty | (body & Hb)].
  - exfalso.
    exact (tags_of_vm_key_not_empty py_str attrs "vm_flag" flag eq_refl Hflag
             Hempty).
  - exists body. intros s2. unfold extract_vm_tags, bind, lift, ret. cbn.
    rewrite ?Hattr. cbn. now rewrite tag_loop_fold, Hb.
Qed.

Lemma X15_witness :
  let vm_record :=
    JObj [("ContactId", JStr "c-1");
          ("Attributes", JObj [("agent", JStr "a-7"); ("vm_flag", JStr "1")])]
  in
  evaluate_flag str_of_scalar vm_record (JStr "c-1") start_of_batch
  = (start_of_batch, Ok true) /\
  exists body : string,
    extract_vm_tags str_of_scalar vm_record start_of_batch
    = (start_of_batch, Ok (body ++ "&")%string).
Proof.
  split; [reflexivity |].
  destruct (X15_tagging_of_a_voicemail str_of_scalar
              (JObj [("ContactId", JStr "c-1");
                     ("Attributes",
                      JObj [("agent", JStr "a-7"); ("vm_flag", JStr "1")])])
              (JStr "c-1") start_of_batch start_of_batch eq_refl)
    as (body & Hbody).
  exists body. apply Hbody.
Defined.

(* ================================================================== *)
(** ** Artifacts come from stream-complete only *)

Lemma artifacts_without_complete (wave_write : bytes -> answer bytes)
  (evs : list kvs_event) (p : proc) :
  (forall e, In e evs -> e <> StreamReadComplete) ->
  from_customer_audio (self (fst (deliver_all wave_write evs p)))
  = from_customer_audio (self p) /\
  to_customer_audio (self (fst (deliver_all wave_write evs p)))
  = to_customer_audio (self p).
Proof.
  revert p. induction evs as [| e evs IH]; intros p Hno; cbn; [auto |].
  unfold bind.
  assert (He : e <> StreamReadComplete) by (apply Hno; now left).
  assert (Hrest : forall e', In e' evs -> e' <> StreamReadComplete)
    by (intros e' Hin; apply Hno; now right).
  destruct e as [dom | |]; [| congruence |]; cbn [deliver].
  - destruct (on_fragment_arrived_effect dom p)
      as (p1 & H1 & _ & _ & _ & _ & _ & _ & Hto & Hfrom).
    rewrite H1. destruct (IH p1 Hrest) as (IHfrom & IHto).
    now rewrite IHfrom, IHto, Hto, Hfrom.
  - unfold on_stream_read_exception, ret. apply (IH p Hrest).
Qed.

(** X16. Only [on_stream_read_complete] packages a buffer. When the wait
    of [service_loop] ends on a trace without a stream-complete event,
    that is, on a fragment past the end, both artifacts are still [None],
    whatever audio the buffers hold. *)
Theorem X16_no_artifact_without_stream_complete
  (wave_write : bytes -> answer bytes) (k : kvs_stream)
  (stream : string) (start stop : Z) (cs : list io_call) (p' : proc) :
  (forall e, In e (delivered k) -> e <> StreamReadComplete) ->
  service_loop wave_write k
    {| self := consumer stream start stop; io := cs |} = (p', Ok tt) ->
  from_customer_audio (self p') = None /\
  to_customer_audio (self p') = None.
Proof.
  intros Hno. unfold service_loop, bind, gets, log_call, modify, lift.
  cbn -[await].
  destruct (data_endpoint_error k); cbn -[await]; [discriminate |].
  destruct (media_client_error k); cbn -[await]; [discriminate |].
  destruct (get_media_error k); cbn -[await]; [discriminate |].
  intros Hwait. apply await_prefix in Hwait as (n & ->).
  apply artifacts_without_complete.
  intros e Hin. apply Hno. exact (in_firstn _ _ _ Hin).
Qed.

(** A fragment with audio on both channels, then one past the end. *)
Lemma X16_witness :
  let k := stream_of
             [FragmentArrived
                (fragment "100" (Some [Byte.x42]) (Some [Byte.x52]));
              FragmentArrived (fragment "101" None None)] 0 in
  let run := service_loop wave_pcm k
               {| self := consumer "connect-vm" 99 100; io := [] |} in
  snd run = Ok tt /\
  from_audio_fragments (self (fst run)) = [Byte.x42] /\
  from_customer_audio (self (fst run)) = None.
Proof.
  split; [reflexivity |]. split; [reflexivity |].
  refine (proj1
    (X16_no_artifact_without_stream_complete wave_pcm
       (stream_of
          [FragmentArrived
             (fragment "100" (Some [Byte.x42]) (Some [Byte.x52]));
           FragmentArrived (fragment "101" None None)] 0)
       "connect-vm" 99 100 []
       (fst (service_loop wave_pcm
               (stream_of
                  [FragmentArrived
                     (fragment "100" (Some [Byte.x42]) (Some [Byte.x52]));
                   FragmentArrived (fragment "101" None None)] 0)
               {| self := consumer "connect-vm" 99 100; io := [] |}))
       _ eq_refl)).
  intros e [<- | [<- | []]]; discriminate.
Defined.
